(** * Real-ESRGAN upscaling service: dispatch and parameter resolution

    A shallow embedding of [services/image_upscaler/upscaler.py]: the model
    registry ([_get_model]), the weight resolver ([_get_model_path]), the
    device selector ([_get_device_type]), the extension rule
    ([_get_extension]) and the orchestration function ([upscale]).

    Python exceptions are values of [exn]; a call either returns or raises
    ([result]).  Code that touches the file system, the logger or one of the
    third-party engines runs in the monad [M], which threads a [World] (the
    files on disk and the trace of observable effects).  Side effects done
    before an exception is raised stay in the world. *)

From Stdlib Require Import ZArith String Ascii List Bool Lia Floats.
From Stdlib Require Import Strings.Byte.
From stdpp Require Import base strings gmap list.

Local Open Scope string_scope.
Local Open Scope list_scope.

(** ** Python strings *)

Module PyStr.

(** [s.startswith(p)] *)
Definition startswith (s p : string) : bool := String.prefix p s.

(** [s.endswith("/")], the only use the path functions make of it. *)
Fixpoint endswith_slash (s : string) : bool :=
  match s with
  | EmptyString => false
  | String c EmptyString => Ascii.eqb c "/"%char
  | String _ rest => endswith_slash rest
  end.

(** [str.replace] for a non-empty [old]: scanning from the left, each
    occurrence of [old] is replaced by [new] and the scan resumes after
    it.  [skip] counts the characters of a matched occurrence still to be
    dropped. *)
Fixpoint replace_from (old new : string) (skip : nat) (s : string) : string :=
  match s with
  | EmptyString => EmptyString
  | String c rest =>
      match skip with
      | S k => replace_from old new k rest
      | O =>
          if String.prefix old s
          then new ++ replace_from old new (String.length old - 1) rest
          else String c (replace_from old new 0 rest)
      end
  end.

(** [str.replace] with an empty [old] puts [new] before every character
    and at the end. *)
Fixpoint intersperse (new s : string) : string :=
  match s with
  | EmptyString => new
  | String c rest => new ++ String c (intersperse new rest)
  end.

(** [s.replace(old, new)] *)
Definition replace (s old new : string) : string :=
  match old with
  | EmptyString => intersperse new s
  | _ => replace_from old new 0 s
  end.

End PyStr.

(** ** [os.path] (POSIX flavour) *)

Module OsPath.

(** [os.path.basename(p)]: what follows the last slash. *)
Fixpoint basename_from (acc p : string) : string :=
  match p with
  | EmptyString => acc
  | String c rest =>
      if Ascii.eqb c "/"%char then basename_from EmptyString rest
      else basename_from (acc ++ String c EmptyString) rest
  end.

Definition basename (p : string) : string := basename_from EmptyString p.

(** [os.path.join(a, b)] for two components. *)
Definition join (a b : string) : string :=
  if PyStr.startswith b "/" then b
  else if orb (String.eqb a EmptyString) (PyStr.endswith_slash a) then a ++ b
  else a ++ "/" ++ b.

End OsPath.

(** ** Exceptions and results *)

Inductive exn_class : Type :=
| ValueError
| RuntimeError
| RuntimeErrorSubclass (name : string)   (* e.g. torch.cuda.OutOfMemoryError *)
| AttributeError
| OtherException (name : string).

Record exn : Type := Exn { exn_cls : exn_class; exn_msg : string }.

(** [isinstance(e, RuntimeError)], the test of [except RuntimeError]. *)
Definition is_RuntimeError (e : exn) : bool :=
  match exn_cls e with
  | RuntimeError | RuntimeErrorSubclass _ => true
  | _ => false
  end.

Inductive result (A : Type) : Type :=
| Return (a : A)
| Raise (e : exn).
Arguments Return {A} a.
Arguments Raise {A} e.

(** ** The request schema ([services/image_upscaler/schema.py]) *)

Inductive ModelName : Type :=
| RealESRGAN_x4plus
| RealESRGAN_x2plus
| RealESRGAN_x4plus_anime_6B
| realesr_animevideov3
| realesr_general_x4v3
| UltraSharp_x4.

Inductive DeviceType : Type := AUTO | CUDA | CPU | MPS.

(** Modelled from the spec: the values of the [DeviceType] members, which the
    schema module declares; the spec lists the device preferences as auto,
    cpu, cuda and mps. *)
Definition DeviceType_value (d : DeviceType) : string :=
  match d with
  | AUTO => "auto"
  | CUDA => "cuda"
  | CPU => "cpu"
  | MPS => "mps"
  end.

(** The two network families; only the hyper-parameters are kept. *)
Inductive Net : Type :=
| RRDBNet (num_in_ch num_out_ch num_feat num_block num_grow_ch scale : Z)
| SRVGGNetCompact (num_in_ch num_out_ch num_feat num_conv upscale : Z) (act_type : string).

Record ModelEntity : Type := mkModelEntity {
  model : Net;
  netscale : Z;
  file_url : list string
}.

Record UpscaleRequest : Type := mkUpscaleRequest {
  model_name : string;                 (* the value of a [ModelName] member, or any other string *)
  denoise_strength : option float;
  device_type : DeviceType;
  tile : Z;
  tile_pad : Z;
  pre_pad : Z;
  fp32 : bool;
  gpu_id : option Z;
  face_enhance : bool;
  outscale : float;
  ext : string
}.

(** ** Images, engines and the world *)

(** A numpy array: its [shape] and its elements. *)
Record ndarray : Type := mk_ndarray {
  shape : list Z;
  data : list Z
}.

(** [model_path] of [RealESRGANer] is a [str] or a [list] of [str]. *)
Inductive model_path_arg : Type :=
| OnePath (p : string)
| PathList (ps : list string).

(** The keyword arguments of [RealESRGANer(...)]. *)
Record RealESRGANer_args : Type := mkRealESRGANer {
  ra_scale : Z;
  ra_model_path : model_path_arg;
  ra_dni_weight : option (list float);
  ra_model : Net;
  ra_tile : Z;
  ra_tile_pad : Z;
  ra_pre_pad : Z;
  ra_half : bool;
  ra_gpu_id : option Z;
  ra_device : string
}.

(** The keyword arguments of [GFPGANer(...)]. *)
Record GFPGANer_args : Type := mkGFPGANer {
  ga_model_path : string;
  ga_upscale : float;
  ga_arch : string;
  ga_channel_multiplier : Z;
  ga_bg_upsampler : RealESRGANer_args;
  ga_device : string
}.

(** Observable effects, in the order they happen. *)
Inductive event : Type :=
| EvIsFile (path : string)                              (* os.path.isfile(path) *)
| EvLoadFile (url model_dir : string) (fetched : bool)  (* load_file_from_url; [fetched]: it downloaded *)
| EvLogDebug (msg : string)                             (* logger.debug *)
| EvLogError (error : exn)                              (* logger.error('Error: %s', error) *)
| EvRealESRGANer (args : RealESRGANer_args)             (* RealESRGANer(...) *)
| EvImdecode (buf : list byte)                          (* cv2.imdecode *)
| EvGFPGANer (args : GFPGANer_args)                     (* GFPGANer(...) *)
| EvFaceEnhance (args : GFPGANer_args) (img : ndarray)  (* face_enhancer.enhance *)
| EvEnhance (args : RealESRGANer_args) (img : ndarray) (scale : float) (* upsampler.enhance *)
| EvImencode (suffix : string) (img : ndarray).         (* cv2.imencode *)

Record World : Type := mkWorld {
  files : gset string;     (* absolute paths of the regular files on disk *)
  trace : list event
}.

(** What one call of [load_file_from_url] did. *)
Record LoadOutcome : Type := mkLoadOutcome {
  lo_result : result string;   (* the local path, or the error *)
  lo_files : gset string;      (* the files on disk afterwards *)
  lo_fetched : bool            (* whether it downloaded from the url *)
}.

(** The host and the third-party code [upscale] calls: torch, os.path,
    basicsr, realesrgan, gfpgan and cv2.  Each is a function of what it is
    given; a constructor or a call that fails raises. *)
Record Host : Type := mkHost {
  cudaIsAvailable : bool;
  mpsIsAvailable : bool;
  abspath : string -> string;   (* os.path.abspath, for the current directory *)
  root_dir : string;            (* dirname(dirname(dirname(abspath(__file__)))) *)
  load_file_from_url : string -> string -> gset string -> LoadOutcome;
  new_RealESRGANer : RealESRGANer_args -> gset string -> option exn;
  imdecode : list byte -> result (option ndarray);
  upsampler_enhance : RealESRGANer_args -> ndarray -> float -> result ndarray;
  new_GFPGANer : GFPGANer_args -> gset string -> option exn * gset string;
  face_enhancer_enhance : GFPGANer_args -> ndarray -> result ndarray;
  imencode : string -> ndarray -> result (bool * list byte)
}.

(** ** The monad of effectful code *)

Definition M (A : Type) : Type := World -> result A * World.

Definition ret {A : Type} (a : A) : M A := fun w => (Return a, w).

Definition raise {A : Type} (e : exn) : M A := fun w => (Raise e, w).

Definition bind {A B : Type} (m : M A) (k : A -> M B) : M B :=
  fun w =>
    match m w with
    | (Return a, w') => k a w'
    | (Raise e, w') => (Raise e, w')
    end.

Notation "x <- m ;; k" := (bind m (fun x => k))
  (at level 100, m at next level, k at level 200, right associativity).

Definition lift {A : Type} (r : result A) : M A := fun w => (r, w).

Definition emit (ev : event) : M unit :=
  fun w => (Return tt, mkWorld (files w) (trace w ++ [ev])).

(** [try: body  except RuntimeError as error: handler error] *)
Definition try_except_RuntimeError {A : Type} (body : M A) (handler : exn -> M A) : M A :=
  fun w =>
    match body w with
    | (Return a, w') => (Return a, w')
    | (Raise e, w') => if is_RuntimeError e then handler e w' else (Raise e, w')
    end.

(** The events a computation adds to the trace of [w]. *)
Definition new_events {A : Type} (m : M A) (w : World) : list event :=
  drop (length (trace w)) (trace (snd (m w))).

(** ** The program *)

(** [img_mode == 'RGBA'] for an [img_mode] that is a string or [None]. *)
Definition img_mode_is (img_mode : option string) (s : string) : bool :=
  match img_mode with
  | Some m => String.eqb m s
  | None => false
  end.

Definition _get_extension (img_mode : option string) (ext : string) : string :=
  if img_mode_is img_mode "RGBA" then "png"
  else if String.eqb ext "auto" then "jpg"
  else ext.

Section Program.

(** The values of the [ModelName] members: a parameter.  [ModelName] is
    declared in the schema module; [model_name + '.pth'] in
    [_get_model_path] makes it an enumeration of strings, so that
    [model_name == ModelName.X] compares the values. *)
Variable ModelName_value : ModelName -> string.

Variable host : Host.

Definition _get_model (model_name : string) : result ModelEntity :=
  if String.eqb model_name (ModelName_value RealESRGAN_x4plus) then
    Return (mkModelEntity (RRDBNet 3 3 64 23 32 4) 4
      ["https://github.com/xinntao/Real-ESRGAN/releases/download/v0.1.0/RealESRGAN_x4plus.pth"])
  else if String.eqb model_name (ModelName_value RealESRGAN_x2plus) then
    Return (mkModelEntity (RRDBNet 3 3 64 23 32 2) 2
      ["https://github.com/xinntao/Real-ESRGAN/releases/download/v0.2.1/RealESRGAN_x2plus.pth"])
  else if String.eqb model_name (ModelName_value RealESRGAN_x4plus_anime_6B) then
    Return (mkModelEntity (RRDBNet 3 3 64 6 32 4) 4
      ["https://github.com/xinntao/Real-ESRGAN/releases/download/v0.2.2.4/RealESRGAN_x4plus_anime_6B.pth"])
  else if String.eqb model_name (ModelName_value realesr_animevideov3) then
    Return (mkModelEntity (SRVGGNetCompact 3 3 64 16 4 "prelu") 4
      ["https://github.com/xinntao/Real-ESRGAN/releases/download/v0.2.5.0/realesr-animevideov3.pth"])
  else if String.eqb model_name (ModelName_value realesr_general_x4v3) then
    Return (mkModelEntity (SRVGGNetCompact 3 3 64 32 4 "prelu") 4
      ["https://github.com/xinntao/Real-ESRGAN/releases/download/v0.2.5.0/realesr-general-wdn-x4v3.pth";
       "https://github.com/xinntao/Real-ESRGAN/releases/download/v0.2.5.0/realesr-general-x4v3.pth"])
  else if String.eqb model_name (ModelName_value UltraSharp_x4) then
    Return (mkModelEntity (RRDBNet 3 3 64 23 32 4) 4
      ["https://github.com/dmcooller/Not-Real-ESRGAN/releases/download/v0.3.1/UltraSharp_x4.pth"])
  else
    Raise (Exn ValueError "Invalid model name").

(** [os.path.isfile(path)] *)
Definition isfile (path : string) : M bool :=
  fun w =>
    (Return (bool_decide (abspath host path ∈ files w)),
     mkWorld (files w) (trace w ++ [EvIsFile path])).

(** One call [load_file_from_url(url=url, model_dir=model_dir, progress=True,
    file_name=None)]. *)
Definition call_load_file_from_url (url model_dir : string) : M string :=
  fun w =>
    let o := load_file_from_url host url model_dir (files w) in
    (lo_result o,
     mkWorld (lo_files o) (trace w ++ [EvLoadFile url model_dir (lo_fetched o)])).

(** The loop [for url in file_url: model_path = load_file_from_url(...)]. *)
Fixpoint for_url_in (file_url : list string) (model_dir : string) (model_path : string)
  : M string :=
  match file_url with
  | [] => ret model_path
  | url :: rest =>
      model_path' <- call_load_file_from_url url model_dir ;;
      for_url_in rest model_dir model_path'
  end.

Definition _get_model_path (model_name : string) (file_url : list string) : M string :=
  let model_path := OsPath.join "weights" (model_name ++ ".pth") in
  found <- isfile model_path ;;
  if negb found then
    for_url_in file_url (OsPath.join (root_dir host) "weights") model_path
  else
    ret model_path.

Definition _get_device_type (backend_type : DeviceType) : M string :=
  backend <-
    match backend_type with
    | AUTO =>
        if cudaIsAvailable host then ret "cuda"
        else if mpsIsAvailable host then ret "mps"
        else ret "cpu"
    | CUDA =>
        if cudaIsAvailable host then ret "cuda"
        else raise (Exn RuntimeError "CUDA is not available")
    | CPU => ret "cpu"
    | MPS =>
        if mpsIsAvailable host then ret "mps"
        else raise (Exn RuntimeError "MPS is not available")
    end ;;
  _ <- emit (EvLogDebug ("Using backend: " ++ backend)) ;;
  ret backend.

(** [GFPGANer(...)], which may fetch its own weights. *)
Definition call_GFPGANer (args : GFPGANer_args) : M GFPGANer_args :=
  fun w =>
    let '(err, fs) := new_GFPGANer host args (files w) in
    (match err with Some e => Raise e | None => Return args end,
     mkWorld fs (trace w ++ [EvGFPGANer args])).

Definition _load_face_enhancer (outscale : float) (upsampler : RealESRGANer_args)
  (device : string) : M GFPGANer_args :=
  call_GFPGANer
    (mkGFPGANer "https://github.com/TencentARC/GFPGAN/releases/download/v1.3.0/GFPGANv1.3.pth"
       outscale "clean" 2 upsampler device).

(** [RealESRGANer(...)]; the object is identified with its arguments. *)
Definition call_RealESRGANer (args : RealESRGANer_args) : M RealESRGANer_args :=
  fun w =>
    (match new_RealESRGANer host args (files w) with
     | Some e => Raise e
     | None => Return args
     end,
     mkWorld (files w) (trace w ++ [EvRealESRGANer args])).

(** [cv2.imdecode(np.fromstring(file, np.uint8), cv2.IMREAD_UNCHANGED)] *)
Definition call_imdecode (file : list byte) : M (option ndarray) :=
  _ <- emit (EvImdecode file) ;; lift (imdecode host file).

(** [upsampler.enhance(img, outscale=outscale)], first component. *)
Definition call_enhance (upsampler : RealESRGANer_args) (img : ndarray) (outscale : float)
  : M ndarray :=
  _ <- emit (EvEnhance upsampler img outscale) ;;
  lift (upsampler_enhance host upsampler img outscale).

(** [face_enhancer.enhance(img, has_aligned=False, only_center_face=False,
    paste_back=True)], third component. *)
Definition call_face_enhance (face_enhancer : GFPGANer_args) (img : ndarray) : M ndarray :=
  _ <- emit (EvFaceEnhance face_enhancer img) ;;
  lift (face_enhancer_enhance host face_enhancer img).

(** [cv2.imencode(suffix, output)] *)
Definition call_imencode (suffix : string) (output : ndarray) : M (bool * list byte) :=
  _ <- emit (EvImencode suffix output) ;; lift (imencode host suffix output).

(** Lines 29-33 of [upscale]: the weight paths and the [dni_weight] handed
    to [RealESRGANer].  The condition of line 30 is taken by cases on
    [denoise_strength]: [None], or a float compared with 1. *)
Definition upscale_dni (model_name : string) (denoise_strength : option float)
  (model_path : string) : model_path_arg * option (list float) :=
  match denoise_strength with
  | Some strength =>
      if String.eqb model_name (ModelName_value realesr_general_x4v3)
         && negb (PrimFloat.eqb strength 1)
      then
        let wdn_model_path :=
          PyStr.replace model_path "realesr-general-x4v3" "realesr-general-wdn-x4v3" in
        (PathList [model_path; wdn_model_path], Some [strength; (1 - strength)%float])
      else (OnePath model_path, None)
  | None => (OnePath model_path, None)
  end.

(** Line 39 of [upscale]. *)
Definition upscale_half (device : string) (fp32 : bool) : bool :=
  if existsb (String.eqb device) [DeviceType_value CUDA; DeviceType_value MPS]
  then negb fp32
  else false.

(** Lines 58-61 of [upscale], for an [img] that is an array. *)
Definition upscale_img_mode (img : ndarray) : option string :=
  if (length (shape img) =? 3)%nat && bool_decide (shape img !! 2%nat = Some 4%Z)
  then Some "RGBA"
  else None.

Definition upscale (file : list byte) (params : UpscaleRequest) : M (list byte * string) :=
  model_entity <- lift (_get_model (model_name params)) ;;
  model_path <- _get_model_path (model_name params) (file_url model_entity) ;;
  let model_path_dni := upscale_dni (model_name params) (denoise_strength params) model_path in
  device <- _get_device_type (device_type params) ;;
  let half := upscale_half device (fp32 params) in
  upsampler <- call_RealESRGANer
    (mkRealESRGANer (netscale model_entity) (fst model_path_dni) (snd model_path_dni)
       (model model_entity) (tile params) (tile_pad params) (pre_pad params)
       half (gpu_id params) device) ;;
  img <- call_imdecode file ;;
  match img with
  | None =>
      (* len(img.shape) with img = None *)
      raise (Exn AttributeError "'NoneType' object has no attribute 'shape'")
  | Some img =>
      let img_mode := upscale_img_mode img in
      output <-
        try_except_RuntimeError
          (if face_enhance params then
             face_enhancer <- _load_face_enhancer (outscale params) upsampler device ;;
             call_face_enhance face_enhancer img
           else
             call_enhance upsampler img (outscale params))
          (fun error => _ <- emit (EvLogError error) ;; raise error) ;;
      let extension := _get_extension img_mode (ext params) in
      encoded <- call_imencode ("." ++ extension) output ;;
      if negb (fst encoded) then raise (Exn RuntimeError "Error encoding the image")
      else ret (snd encoded, extension)
  end.

End Program.

(** ** Instances of the parameters *)

(** Each [ModelName] member valued by the name of its published weight file. *)
Definition weight_file_name (m : ModelName) : string :=
  match m with
  | RealESRGAN_x4plus => "RealESRGAN_x4plus"
  | RealESRGAN_x2plus => "RealESRGAN_x2plus"
  | RealESRGAN_x4plus_anime_6B => "RealESRGAN_x4plus_anime_6B"
  | realesr_animevideov3 => "realesr-animevideov3"
  | realesr_general_x4v3 => "realesr-general-x4v3"
  | UltraSharp_x4 => "UltraSharp_x4"
  end.

(** [load_file_from_url] of basicsr with [file_name=None], for a url
    without query, parameters or fragment (as the urls of the registry are)
    and a download that succeeds: the local file is
    [abspath(join(model_dir, basename(url)))]; it is downloaded when it does
    not exist, and its path is returned.  For such a url basicsr's
    [basename(urlparse(url).path)] is [basename(url)]. *)
Definition basicsr_load_file_from_url (abspath : string -> string)
  (url model_dir : string) (fs : gset string) : LoadOutcome :=
  let cached_file := abspath (OsPath.join model_dir (OsPath.basename url)) in
  if bool_decide (cached_file ∈ fs)
  then mkLoadOutcome (Return cached_file) fs false
  else mkLoadOutcome (Return cached_file) ({[cached_file]} ∪ fs) true.

(** A host uses the loader of basicsr. *)
Definition basicsr_loader (host : Host) : Prop :=
  forall url model_dir fs,
    load_file_from_url host url model_dir fs =
    basicsr_load_file_from_url (abspath host) url model_dir fs.

(** [os.path.abspath] of a path without [.] and [..] components, in the
    directory [cwd]. *)
Definition posix_abspath (cwd p : string) : string :=
  if PyStr.startswith p "/" then p else OsPath.join cwd p.

(** A host installed in [/srv/app] and run from there, whose engines
    succeed: the decoder gives [decoded], both enhancers give [enhanced]. *)
Definition sample_host (cuda mps : bool) (decoded : option ndarray)
  (enhanced : result ndarray) : Host :=
  mkHost cuda mps (posix_abspath "/srv/app") "/srv/app"
    (basicsr_load_file_from_url (posix_abspath "/srv/app"))
    (fun _ _ => None)
    (fun _ => Return decoded)
    (fun _ _ _ => enhanced)
    (fun _ fs => (None, fs))
    (fun _ _ => enhanced)
    (fun _ _ => Return (true, [x89; x50; x4e; x47])).

(** A 2x2 image with three channels. *)
Definition sample_image : ndarray :=
  mk_ndarray [2; 2; 3]%Z [0; 0; 0; 0; 0; 0; 0; 0; 0; 0; 0; 0]%Z.

Definition sample_request (name : string) (strength : option float) (d : DeviceType)
  : UpscaleRequest :=
  mkUpscaleRequest name strength d 0 10 0 false None false 4%float "auto".

Definition empty_world : World := mkWorld ∅ [].

(** The world in which only the general-purpose weight file of the
    blend-capable model is in the cache. *)
Definition general_cached_world : World :=
  mkWorld {[ "/srv/app/weights/realesr-general-x4v3.pth" ]} [].

(** The event of a call of [load_file_from_url] that downloaded. *)
Definition is_download (ev : event) : bool :=
  match ev with
  | EvLoadFile _ _ fetched => fetched
  | _ => false
  end.

(** The number of downloads in a trace. *)
Definition downloads (evs : list event) : nat :=
  length (List.filter is_download evs).

(** The backend a preference resolves to on a host, or the error. *)
Definition device_policy (host : Host) (d : DeviceType) : result string :=
  match d with
  | AUTO =>
      Return (if cudaIsAvailable host then "cuda"
              else if mpsIsAvailable host then "mps" else "cpu")
  | CPU => Return "cpu"
  | CUDA =>
      if cudaIsAvailable host then Return "cuda"
      else Raise (Exn RuntimeError "CUDA is not available")
  | MPS =>
      if mpsIsAvailable host then Return "mps"
      else Raise (Exn RuntimeError "MPS is not available")
  end.

(** The events of the weight resolver's loop. *)
Definition is_load (ev : event) : bool :=
  match ev with
  | EvLoadFile _ _ _ => true
  | _ => false
  end.

(** The events of the enhancement stage (lines 63-68) and of the encoder. *)
Definition is_enhancement (ev : event) : bool :=
  match ev with
  | EvGFPGANer _ | EvFaceEnhance _ _ | EvEnhance _ _ _ => true
  | _ => false
  end.

Definition is_encode (ev : event) : bool :=
  match ev with
  | EvImencode _ _ => true
  | _ => false
  end.

(** The call recorded by [ev] is an enhancement call that raises [e]. *)
Definition enhancement_raises (host : Host) (ev : event) (e : exn) : Prop :=
  match ev with
  | EvEnhance upsampler img scale => upsampler_enhance host upsampler img scale = Raise e
  | EvFaceEnhance face_enhancer img => face_enhancer_enhance host face_enhancer img = Raise e
  | _ => False
  end.

(** The file the weight resolver looks for. *)
Definition cache_path (model_name : string) : string :=
  OsPath.join "weights" (model_name ++ ".pth").

(** The calls of the two enhancers. *)
Definition is_enhance_call (ev : event) : bool :=
  match ev with
  | EvFaceEnhance _ _ | EvEnhance _ _ _ => true
  | _ => false
  end.

(** No blending: one weight path and no [dni_weight]. *)
Definition blend_absent (args : RealESRGANer_args) (model_path : string) : Prop :=
  ra_model_path args = OnePath model_path /\ ra_dni_weight args = None.

(** An enhancement failure that is a [RuntimeError]. *)
Definition out_of_memory : exn :=
  Exn (RuntimeErrorSubclass "OutOfMemoryError") "CUDA out of memory".

(** Hosts and requests of the examples. *)
Definition host_cpu : Host :=
  sample_host false false (Some sample_image) (Return sample_image).

Definition host_cuda : Host :=
  sample_host true false (Some sample_image) (Return sample_image).

Definition host_out_of_memory : Host :=
  sample_host true false (Some sample_image) (Raise out_of_memory).


(** The strength 0.3 and its complement 0.7, as binary64 numbers. *)
Definition strength_03 : float := 0x1.3333333333333p-2%float.
Definition strength_07 : float := 0x1.6666666666666p-1%float.

Definition x4plus_request : UpscaleRequest :=
  sample_request "RealESRGAN_x4plus" None AUTO.

Definition blend_request : UpscaleRequest :=
  sample_request "realesr-general-x4v3" (Some strength_03) CPU.

Definition x4plus_cuda_args : RealESRGANer_args :=
  mkRealESRGANer 4 (OnePath "/srv/app/weights/RealESRGAN_x4plus.pth") None
    (RRDBNet 3 3 64 23 32 4) 0 10 0 true None "cuda".

Definition x4plus_cpu_args : RealESRGANer_args :=
  mkRealESRGANer 4 (OnePath "/srv/app/weights/RealESRGAN_x4plus.pth") None
    (RRDBNet 3 3 64 23 32 4) 0 10 0 false None "cpu".

Definition blend_cached_args : RealESRGANer_args :=
  mkRealESRGANer 4
    (PathList ["weights/realesr-general-x4v3.pth"; "weights/realesr-general-wdn-x4v3.pth"])
    (Some [strength_03; strength_07])
    (SRVGGNetCompact 3 3 64 32 4 "prelu") 0 10 0 false None "cpu".

(** ** Binary64 rounding

    The arithmetic of [denoise_strength] is that of Python floats: binary64
    with rounding to nearest, ties to even.  These definitions name the
    steps of [binary_round_aux], the rounding of the specification of
    floats. *)

Section Binary64Defs.

Local Open Scope Z_scope.

(** The number 1 as a specified float. *)
Definition sf_one : spec_float := S754_finite false 4503599627370496 (-52).

(** The round bit after shifting [m] right by [n] places. *)
Definition round_bit (n : nat) (m : Z) : bool :=
  match n with
  | O => false
  | S n' => Z.odd (m / 2 ^ Z.of_nat n')
  end.

(** The sticky bit after shifting [m] right by [n] places. *)
Definition sticky_bit (n : nat) (m : Z) : bool :=
  match n with
  | O => false
  | S n' => negb (m mod 2 ^ Z.of_nat n' =? 0)
  end.

(** Rounding to nearest, ties to even, of a shifted mantissa [q]. *)
Definition rne (q : Z) (rb sb : bool) : Z :=
  if rb && (sb || Z.odd q) then q + 1 else q.

(** The second half of [binary_round_aux]: renormalising the rounded
    mantissa. *)
Definition round_finish (sx : bool) (D e' : Z) : spec_float :=
  let '(mrs, e'') := shr_fexp prec emax D e' loc_Exact in
  match shr_m mrs with
  | Z0 => S754_zero sx
  | Zpos m => if Z.leb e'' (emax - prec) then S754_finite sx m e'' else S754_infinity sx
  | Zneg _ => S754_nan
  end.

End Binary64Defs.

(** The urls of the descriptor of [realesr_general_x4v3]. *)
Definition blend_urls : list string :=
  ["https://github.com/xinntao/Real-ESRGAN/releases/download/v0.2.5.0/realesr-general-wdn-x4v3.pth";
   "https://github.com/xinntao/Real-ESRGAN/releases/download/v0.2.5.0/realesr-general-x4v3.pth"].

(** ** Notions for the properties of the stages *)

Definition is_log_error (ev : event) : bool :=
  match ev with
  | EvLogError _ => true
  | _ => false
  end.

Definition is_constructor (ev : event) : bool :=
  match ev with
  | EvRealESRGANer _ => true
  | _ => false
  end.

Definition is_decode (ev : event) : bool :=
  match ev with
  | EvImdecode _ => true
  | _ => false
  end.

Definition is_GFPGANer (ev : event) : bool :=
  match ev with
  | EvGFPGANer _ => true
  | _ => false
  end.

(** The events of the face path: the constructor and the call. *)
Definition is_face_event (ev : event) : bool :=
  match ev with
  | EvGFPGANer _ | EvFaceEnhance _ _ => true
  | _ => false
  end.

(** The call [upsampler.enhance] made by [upscale] itself. *)
Definition is_plain_enhance (ev : event) : bool :=
  match ev with
  | EvEnhance _ _ _ => true
  | _ => false
  end.

(** How many events of a trace satisfy [p]. *)
Definition count_events (p : event -> bool) (evs : list event) : nat :=
  length (List.filter p evs).

(** The urls handed to [load_file_from_url], in the order of the calls. *)
Definition requested_urls (evs : list event) : list string :=
  flat_map (fun ev => match ev with EvLoadFile url _ _ => [url] | _ => [] end) evs.

(** The scale a network was built with. *)
Definition net_scale (n : Net) : Z :=
  match n with
  | RRDBNet _ _ _ _ _ scale => scale
  | SRVGGNetCompact _ _ _ _ upscale _ => upscale
  end.

(** The local file basicsr keeps for [url] under the weights directory of
    the project. *)
Definition local_file (host : Host) (url : string) : string :=
  abspath host (OsPath.join (OsPath.join (root_dir host) "weights") (OsPath.basename url)).

(** The path [_get_model_path] returns after the loop over [file_url]. *)
Definition resolved_path (host : Host) (name : string) (file_url : list string) : string :=
  match last file_url with
  | Some url => local_file host url
  | None => OsPath.join "weights" (name ++ ".pth")
  end.

(** More hosts and requests for the examples. *)

(** The encoder rejects the image. *)
Definition host_encode_fails : Host :=
  mkHost false false (posix_abspath "/srv/app") "/srv/app"
    (basicsr_load_file_from_url (posix_abspath "/srv/app"))
    (fun _ _ => None)
    (fun _ => Return (Some sample_image))
    (fun _ _ _ => Return sample_image)
    (fun _ fs => (None, fs))
    (fun _ _ => Return sample_image)
    (fun _ _ => Return (false, [])).

(** An error of the engine that is no [RuntimeError]. *)
Definition codec_error : exn :=
  Exn (OtherException "cv2.error") "Unsupported depth of input image".

Definition host_codec_error : Host :=
  sample_host false false (Some sample_image) (Raise codec_error).

(** A 2x2 image with an alpha channel. *)
Definition rgba_image : ndarray :=
  mk_ndarray [2; 2; 4]%Z [0; 0; 0; 0; 0; 0; 0; 0; 0; 0; 0; 0; 0; 0; 0; 0]%Z.

Definition host_rgba : Host :=
  sample_host false false (Some rgba_image) (Return rgba_image).

Definition webp_request : UpscaleRequest :=
  mkUpscaleRequest "RealESRGAN_x4plus" None AUTO 0 10 0 false None false 4%float "webp".

Definition face_request : UpscaleRequest :=
  mkUpscaleRequest "RealESRGAN_x4plus" None AUTO 0 10 0 false None true 4%float "auto".

Definition cuda_request : UpscaleRequest :=
  sample_request "RealESRGAN_x4plus" None CUDA.

Definition x4plus_urls : list string :=
  ["https://github.com/xinntao/Real-ESRGAN/releases/download/v0.1.0/RealESRGAN_x4plus.pth"].

Definition x4plus_face_args : GFPGANer_args :=
  mkGFPGANer "https://github.com/TencentARC/GFPGAN/releases/download/v1.3.0/GFPGANv1.3.pth"
    4%float "clean" 2 x4plus_cpu_args "cpu".

(** The errors [upscale] and its helpers raise themselves, each with the
    condition under which the code raises it. *)
Inductive own_error (value : ModelName -> string) (host : Host) (file : list byte)
  (params : UpscaleRequest) : exn -> Prop :=
| err_invalid_model :
    (forall m, model_name params <> value m) ->
    own_error value host file params (Exn ValueError "Invalid model name")
| err_cuda_unavailable :
    device_type params = CUDA -> cudaIsAvailable host = false ->
    own_error value host file params (Exn RuntimeError "CUDA is not available")
| err_mps_unavailable :
    device_type params = MPS -> mpsIsAvailable host = false ->
    own_error value host file params (Exn RuntimeError "MPS is not available")
| err_not_an_image :
    imdecode host file = Return None ->
    own_error value host file params
      (Exn AttributeError "'NoneType' object has no attribute 'shape'")
| err_encoding (suffix : string) (output : ndarray) (buffer : list byte) :
    imencode host suffix output = Return (false, buffer) ->
    own_error value host file params (Exn RuntimeError "Error encoding the image").

(** The error [e] is raised by one of the third-party calls. *)
Inductive raised_by_collaborator (host : Host) (file : list byte) (e : exn) : Prop :=
| by_load_file_from_url (url model_dir : string) (fs : gset string) :
    lo_result (load_file_from_url host url model_dir fs) = Raise e ->
    raised_by_collaborator host file e
| by_RealESRGANer (args : RealESRGANer_args) (fs : gset string) :
    new_RealESRGANer host args fs = Some e ->
    raised_by_collaborator host file e
| by_imdecode :
    imdecode host file = Raise e ->
    raised_by_collaborator host file e
| by_GFPGANer (args : GFPGANer_args) (fs : gset string) :
    fst (new_GFPGANer host args fs) = Some e ->
    raised_by_collaborator host file e
| by_face_enhance (args : GFPGANer_args) (img : ndarray) :
    face_enhancer_enhance host args img = Raise e ->
    raised_by_collaborator host file e
| by_enhance (args : RealESRGANer_args) (img : ndarray) (scale : float) :
    upsampler_enhance host args img scale = Raise e ->
    raised_by_collaborator host file e
| by_imencode (suffix : string) (output : ndarray) :
    imencode host suffix output = Raise e ->
    raised_by_collaborator host file e.

Definition blend_downloaded_args : RealESRGANer_args :=
  mkRealESRGANer 4
    (PathList ["/srv/app/weights/realesr-general-x4v3.pth";
               "/srv/app/weights/realesr-general-wdn-x4v3.pth"])
    (Some [strength_03; strength_07])
    (SRVGGNetCompact 3 3 64 32 4 "prelu") 0 10 0 false None "cpu".

Definition x4plus_entity : ModelEntity :=
  mkModelEntity (RRDBNet 3 3 64 23 32 4) 4 x4plus_urls.

(** ** The loop over the urls, call by call *)

(** The disk after the calls of [load_file_from_url] for [urls], made in
    order from the disk [fs]. *)
Fixpoint files_after_loads (host : Host) (model_dir : string) (fs : gset string)
  (urls : list string) : gset string :=
  match urls with
  | [] => fs
  | url :: rest =>
      files_after_loads host model_dir
        (lo_files (load_file_from_url host url model_dir fs)) rest
  end.

(** Each of these calls returns. *)
Fixpoint all_return (host : Host) (model_dir : string) (fs : gset string)
  (urls : list string) : Prop :=
  match urls with
  | [] => True
  | url :: rest =>
      (exists p, lo_result (load_file_from_url host url model_dir fs) = Return p) /\
      all_return host model_dir
        (lo_files (load_file_from_url host url model_dir fs)) rest
  end.

(** A download that fails. *)
Definition download_failed : exn :=
  Exn (OtherException "URLError") "connection refused".

Definition wdn_url : string :=
  "https://github.com/xinntao/Real-ESRGAN/releases/download/v0.2.5.0/realesr-general-wdn-x4v3.pth".

(** A host that cannot reach the noise-suppressed weights; every other url
    is loaded as basicsr does. *)
Definition host_wdn_unreachable : Host :=
  mkHost false false (posix_abspath "/srv/app") "/srv/app"
    (fun url model_dir fs =>
       if String.eqb url wdn_url then mkLoadOutcome (Raise download_failed) fs false
       else basicsr_load_file_from_url (posix_abspath "/srv/app") url model_dir fs)
    (fun _ _ => None)
    (fun _ => Return (Some sample_image))
    (fun _ _ _ => Return sample_image)
    (fun _ fs => (None, fs))
    (fun _ _ => Return sample_image)
    (fun _ _ => Return (true, [x89; x50; x4e; x47])).

(** A strength just below the range of the schema. *)
Definition below_range_strength : float := (- 0x1.8p-54)%float.

Definition below_range_request : UpscaleRequest :=
  sample_request "realesr-general-x4v3" (Some below_range_strength) CPU.

Definition below_range_args : RealESRGANer_args :=
  mkRealESRGANer 4
    (PathList ["weights/realesr-general-x4v3.pth"; "weights/realesr-general-wdn-x4v3.pth"])
    (Some [below_range_strength; (1 - below_range_strength)%float])
    (SRVGGNetCompact 3 3 64 32 4 "prelu") 0 10 0 false None "cpu".

(** * Properties *)

(** ** The extension rule *)

(** C4. Whatever the image mode and the requested extension: an RGBA input
    gives "png"; otherwise a request for "auto" gives "jpg"; otherwise the
    requested extension is returned as it is. *)
Theorem get_extension_selection (img_mode : option string) (ext : string) :
  _get_extension img_mode ext =
    if decide (img_mode = Some "RGBA") then "png"
    else if decide (ext = "auto") then "jpg"
    else ext.
Proof.
  unfold _get_extension, img_mode_is.
  destruct img_mode as [m|].
  - destruct (String.eqb_spec m "RGBA") as [->|Hm].
    + rewrite decide_True by reflexivity. reflexivity.
    + rewrite decide_False by congruence.
      destruct (String.eqb_spec ext "auto"); case_decide; congruence.
  - rewrite decide_False by discriminate.
    destruct (String.eqb_spec ext "auto"); case_decide; congruence.
Qed.

(** ** The device selector *)

Lemma get_device_type_run (host : Host) (d : DeviceType) (w : World) :
  _get_device_type host d w =
    match device_policy host d with
    | Return b => (Return b, mkWorld (files w) (trace w ++ [EvLogDebug ("Using backend: " ++ b)]))
    | Raise e => (Raise e, w)
    end.
Proof.
  unfold _get_device_type, device_policy, bind, ret, raise, emit.
  destruct d, (cudaIsAvailable host), (mpsIsAvailable host); reflexivity.
Qed.

Lemma device_policy_backend (host : Host) (d : DeviceType) (b : string) :
  device_policy host d = Return b -> b = "cpu" \/ b = "cuda" \/ b = "mps".
Proof.
  unfold device_policy.
  destruct d, (cudaIsAvailable host), (mpsIsAvailable host);
    intros [= <-] || discriminate; auto.
Qed.

(** C2. On every host and in every world, [_get_device_type] follows the
    policy: auto gives cuda when CUDA is available, else mps when MPS is
    available, else cpu, and never raises; cpu gives cpu; cuda and mps give
    that backend when it is available and raise otherwise.  What it returns
    is one of cpu, cuda and mps. *)
Theorem device_resolution_policy (host : Host) (d : DeviceType) (w : World) :
  fst (_get_device_type host d w) =
    match d with
    | AUTO =>
        Return (if cudaIsAvailable host then "cuda"
                else if mpsIsAvailable host then "mps" else "cpu")
    | CPU => Return "cpu"
    | CUDA =>
        if cudaIsAvailable host then Return "cuda"
        else Raise (Exn RuntimeError "CUDA is not available")
    | MPS =>
        if mpsIsAvailable host then Return "mps"
        else Raise (Exn RuntimeError "MPS is not available")
    end
  /\ match fst (_get_device_type host d w) with
     | Return b => b = "cpu" \/ b = "cuda" \/ b = "mps"
     | Raise e =>
         (d = CUDA /\ cudaIsAvailable host = false) \/
         (d = MPS /\ mpsIsAvailable host = false)
     end.
Proof.
  rewrite get_device_type_run.
  pose proof (device_policy_backend host d) as Hb.
  unfold device_policy in *.
  destruct d, (cudaIsAvailable host), (mpsIsAvailable host); cbn in *;
    (split; [reflexivity | auto]).
Qed.

(** ** The model registry *)

Section Registry.

Variable ModelName_value : ModelName -> string.

(** Distinct members of an enumeration have distinct values. *)
Hypothesis ModelName_value_inj :
  forall a b : ModelName, ModelName_value a = ModelName_value b -> a = b.

Lemma value_eqb (a b : ModelName) :
  String.eqb (ModelName_value a) (ModelName_value b) = bool_decide (ModelName_value a = ModelName_value b).
Proof.
  destruct (String.eqb_spec (ModelName_value a) (ModelName_value b)) as [E|E].
  - rewrite bool_decide_eq_true_2; auto.
  - rewrite bool_decide_eq_false_2; auto.
Qed.

Lemma value_eqb_ne (a b : ModelName) :
  a <> b -> String.eqb (ModelName_value a) (ModelName_value b) = false.
Proof.
  intros Hne. apply String.eqb_neq. intros E. apply Hne, ModelName_value_inj, E.
Qed.

(** C5. For every member of [ModelName], [_get_model] returns a descriptor;
    its list of urls has two entries for [realesr_general_x4v3] and one
    entry for each other member.  The descriptor depends on the identifier
    only: [_get_model] reads no world. *)
Theorem get_model_url_count (m : ModelName) :
  exists d : ModelEntity,
    _get_model ModelName_value (ModelName_value m) = Return d /\
    length (file_url d) =
      match m with
      | realesr_general_x4v3 => 2
      | _ => 1
      end.
Proof.
  unfold _get_model.
  destruct m;
    repeat first
      [ rewrite String.eqb_refl
      | rewrite value_eqb_ne by discriminate ];
    eexists; split; reflexivity.
Qed.

End Registry.

(** A name that is the value of no member is refused. *)
Lemma get_model_unsupported (value : ModelName -> string) (name : string) :
  (forall m, name <> value m) ->
  _get_model value name = Raise (Exn ValueError "Invalid model name").
Proof.
  intros H. unfold _get_model.
  repeat match goal with
         | |- context [String.eqb name (value ?m)] =>
             rewrite (proj2 (String.eqb_neq name (value m)) (H m))
         end.
  reflexivity.
Qed.

(** C7. When the requested model name is the value of no member of
    [ModelName], [upscale] raises [ValueError("Invalid model name")] and the
    world is as before: no file was looked up, nothing was downloaded and no
    engine was called. *)
Theorem unsupported_model_fails_before_io (value : ModelName -> string) (host : Host)
  (file : list byte) (params : UpscaleRequest) (w : World) :
  (forall m, model_name params <> value m) ->
  upscale value host file params w = (Raise (Exn ValueError "Invalid model name"), w).
Proof.
  intros H. unfold upscale, bind, lift.
  rewrite (get_model_unsupported value _ H). reflexivity.
Qed.

(** ** The weight resolver *)

Lemma for_url_in_run (host : Host) (file_url : list string) (model_dir model_path : string)
  (w : World) :
  exists r fs loads,
    for_url_in host file_url model_dir model_path w = (r, mkWorld fs (trace w ++ loads)) /\
    Forall (fun ev => is_load ev = true) loads /\
    (file_url = [] -> r = Return model_path /\ fs = files w /\ loads = []).
Proof.
  revert model_path w.
  induction file_url as [|url rest IH]; intros model_path w.
  - exists (Return model_path), (files w), [].
    cbn. unfold ret. rewrite app_nil_r. destruct w; auto.
  - cbn [for_url_in]. unfold bind, call_load_file_from_url.
    destruct (lo_result (load_file_from_url host url model_dir (files w))) as [p|e] eqn:E.
    + edestruct (IH p) as (r & fs & loads & Hrun & Hloads & _).
      rewrite Hrun. cbn [trace]. rewrite <- app_assoc.
      exists r, fs, (EvLoadFile url model_dir
                       (lo_fetched (load_file_from_url host url model_dir (files w))) :: loads).
      split; [reflexivity|]. split; [|discriminate].
      constructor; [reflexivity | assumption].
    + eexists _, _, [_]. split; [reflexivity|]. split; [|discriminate].
      constructor; [reflexivity | constructor].
Qed.

Lemma get_model_path_run (host : Host) (name : string) (file_url : list string) (w : World) :
  exists r fs loads,
    _get_model_path host name file_url w =
      (r, mkWorld fs (trace w ++ EvIsFile (cache_path name) :: loads)) /\
    Forall (fun ev => is_load ev = true) loads /\
    (abspath host (cache_path name) ∈ files w ->
     r = Return (cache_path name) /\ fs = files w /\ loads = []).
Proof.
  unfold _get_model_path, bind, isfile. fold (cache_path name).
  case_bool_decide as Hin; cbn [negb].
  - exists (Return (cache_path name)), (files w), [].
    split; [reflexivity|]. split; [constructor | auto].
  - edestruct (for_url_in_run host file_url) as (r & fs & loads & Hrun & Hloads & _).
    rewrite Hrun. cbn [trace]. rewrite <- app_assoc.
    exists r, fs, loads. split; [reflexivity|]. split; [assumption|].
    intros Hin'. contradiction.
Qed.

(** ** Running [upscale] *)

Lemma new_events_run {A : Type} (m : M A) (w : World) (r : result A) (fs : gset string)
  (evs : list event) :
  m w = (r, mkWorld fs (trace w ++ evs)) -> new_events m w = evs.
Proof.
  intros E. unfold new_events. rewrite E. cbn. apply drop_app_length.
Qed.

(** Symbolic execution of [upscale] in the world [w]: one goal per way the
    call can end, with the equations of the stages passed in the context
    and the run in the form [(r, mkWorld fs (trace w ++ evs))]. *)
Ltac run_upscale value host file params w :=
  unfold upscale, bind, lift;
  let me := fresh "me" in
  let Hmodel := fresh "Hmodel" in
  destruct (_get_model value (model_name params)) as [me|?e] eqn:Hmodel;
  [ let r := fresh "r" in
    let fs := fresh "fs" in
    let loads := fresh "loads" in
    let Hpath := fresh "Hpath" in
    let Hloads := fresh "Hloads" in
    let Hhit := fresh "Hhit" in
    destruct (get_model_path_run host (model_name params) (file_url me) w)
      as (r & fs & loads & Hpath & Hloads & Hhit);
    rewrite Hpath;
    destruct r as [?mp|?e];
    [ rewrite get_device_type_run;
      let Hdev := fresh "Hdev" in
      destruct (device_policy host (device_type params)) as [?dev|?e] eqn:Hdev;
      [ unfold call_RealESRGANer; cbn [files trace];
        let Hctor := fresh "Hctor" in
        match goal with
        | |- context [new_RealESRGANer host ?a ?f] =>
            destruct (new_RealESRGANer host a f) as [?e|] eqn:Hctor
        end;
        [ | unfold call_imdecode, bind, emit, lift; cbn [files trace];
            let Hdec := fresh "Hdec" in
            destruct (imdecode host file) as [[?img|]|?e] eqn:Hdec;
            [ unfold try_except_RuntimeError, _load_face_enhancer, call_GFPGANer,
                call_face_enhance, call_enhance, call_imencode, bind, emit, lift, raise, ret;
              cbn [files trace];
              let Hface := fresh "Hface" in
              destruct (face_enhance params) eqn:Hface;
              [ let Hg := fresh "Hg" in
                match goal with
                | |- context [new_GFPGANer host ?a ?f] =>
                    destruct (new_GFPGANer host a f) as [[?e|] ?fs] eqn:Hg
                end;
                [ let Hrt := fresh "Hrt" in
                  match goal with
                  | |- context [is_RuntimeError ?e] => destruct (is_RuntimeError e) eqn:Hrt
                  end
                | cbn [files trace];
                  let Henh := fresh "Henh" in
                  match goal with
                  | |- context [face_enhancer_enhance host ?a ?i] =>
                      destruct (face_enhancer_enhance host a i) as [?output|?e] eqn:Henh
                  end ]
              | let Henh := fresh "Henh" in
                match goal with
                | |- context [upsampler_enhance host ?a ?i ?s] =>
                    destruct (upsampler_enhance host a i s) as [?output|?e] eqn:Henh
                end ];
              cbn [files trace];
              try match goal with
                  | |- context [is_RuntimeError ?e] =>
                      let Hrt := fresh "Hrt" in destruct (is_RuntimeError e) eqn:Hrt
                  end;
              cbn [files trace];
              try match goal with
                  | |- context [imencode host ?s ?o] =>
                      let Henc := fresh "Henc" in
                      destruct (imencode host s o) as [[[|] ?buffer]|?e] eqn:Henc
                  end
            | unfold raise | ] ]
      | ]
    | ]
  | ];
  cbn [files trace fst snd negb];
  rewrite <- ?app_assoc; cbn [app].

Ltac split_elem H :=
  repeat match type of H with
         | _ ∈ [] => apply elem_of_nil in H; contradiction
         | _ ∈ _ :: _ =>
             apply elem_of_cons in H; destruct H as [H|H]; [try discriminate H|]
         | _ ∈ _ ++ _ => apply elem_of_app in H; destruct H as [H|H]
         end.

Ltac not_a_load Hloads H :=
  let X := fresh in
  pose proof (proj1 (Forall_forall _ _) Hloads _ H) as X; discriminate X.

(** The one call of [RealESRGANer]: its arguments come from the descriptor,
    the resolved weight path and the resolved backend. *)
Lemma upscale_constructor_call (value : ModelName -> string) (host : Host)
  (file : list byte) (params : UpscaleRequest) (w : World) (args : RealESRGANer_args) :
  EvRealESRGANer args ∈ new_events (upscale value host file params) w ->
  exists me mp dev,
    _get_model value (model_name params) = Return me /\
    fst (_get_model_path host (model_name params) (file_url me) w) = Return mp /\
    device_policy host (device_type params) = Return dev /\
    args = mkRealESRGANer (netscale me)
             (fst (upscale_dni value (model_name params) (denoise_strength params) mp))
             (snd (upscale_dni value (model_name params) (denoise_strength params) mp))
             (model me) (tile params) (tile_pad params) (pre_pad params)
             (upscale_half dev (fp32 params)) (gpu_id params) dev.
Proof.
  unfold new_events.
  run_upscale value host file params w;
    rewrite ?drop_app_length, ?drop_all; intros Hin; split_elem Hin;
    try (not_a_load Hloads Hin);
    injection Hin as ->; exists me, mp, dev; rewrite ?Hpath; auto.
Qed.

(** ** Half precision *)

Lemma upscale_half_true (device : string) (fp32 : bool) :
  upscale_half device fp32 = true <->
  (device = "cuda" \/ device = "mps") /\ fp32 = false.
Proof.
  unfold upscale_half. cbn [existsb DeviceType_value].
  destruct (String.eqb_spec device "cuda") as [->|Hc];
    [|destruct (String.eqb_spec device "mps") as [->|Hm]];
    cbn [orb]; destruct fp32; cbn [negb]; intuition congruence.
Qed.

(** C3. The [half] argument [upscale] passes to [RealESRGANer] is true
    exactly when the backend it resolved (and passes as [device]) is cuda or
    mps and the request's [fp32] flag is false; with the backend cpu it is
    false whatever [fp32] is. *)
Theorem half_precision_flag (value : ModelName -> string) (host : Host)
  (file : list byte) (params : UpscaleRequest) (w : World) (args : RealESRGANer_args) :
  EvRealESRGANer args ∈ new_events (upscale value host file params) w ->
  fst (_get_device_type host (device_type params) w) = Return (ra_device args) /\
  (ra_half args = true <->
   (ra_device args = "cuda" \/ ra_device args = "mps") /\ fp32 params = false) /\
  (ra_device args = "cpu" -> ra_half args = false).
Proof.
  intros Hin.
  destruct (upscale_constructor_call _ _ _ _ _ _ Hin) as (me & mp & dev & _ & _ & Hdev & ->).
  cbn [ra_device ra_half].
  rewrite get_device_type_run, Hdev. split; [reflexivity|].
  split; [apply upscale_half_true|].
  intros ->. reflexivity.
Qed.

(** ** Enhancement errors and complete results *)

(** C8. When a call of an enhancer ([upsampler.enhance] or
    [face_enhancer.enhance]) made by [upscale] raises a [RuntimeError] [e],
    [upscale] raises that same [e]; the failing call is followed by the log
    entry of the error and by nothing else, and no enhancer was called
    before it: no second attempt and no other path.  Moreover a call of
    [upscale] either raises or returns a buffer that [cv2.imencode] produced
    with success for the returned extension. *)
Theorem enhancement_error_reraised (value : ModelName -> string) (host : Host)
  (file : list byte) (params : UpscaleRequest) (w : World) :
  (forall (ev : event) (e : exn),
     ev ∈ new_events (upscale value host file params) w ->
     enhancement_raises host ev e ->
     is_RuntimeError e = true ->
     fst (upscale value host file params w) = Raise e /\
     exists before,
       new_events (upscale value host file params) w = before ++ [ev; EvLogError e] /\
       Forall (fun ev' => is_enhance_call ev' = false) before) /\
  match fst (upscale value host file params w) with
  | Return (buffer, extension) =>
      exists output,
        imencode host ("." ++ extension) output = Return (true, buffer) /\
        last (new_events (upscale value host file params) w) =
          Some (EvImencode ("." ++ extension) output)
  | Raise _ => True
  end.
Proof.
  unfold new_events.
  split.
  - intros ev e.
    run_upscale value host file params w;
      rewrite ?drop_app_length, ?drop_all; intros Hin Hraise Hisrt; split_elem Hin;
      first [ subst ev
            | pose proof (proj1 (Forall_forall _ _) Hloads _ Hin);
              destruct ev; cbn in *; try discriminate; contradiction ];
      cbn in Hraise; try contradiction; try congruence.
    + assert (e0 = e) as -> by congruence.
      split; [reflexivity|].
      eexists (EvIsFile _ :: loads ++ [_; _; _; _]).
      split; [cbn; rewrite <- app_assoc; reflexivity|].
      constructor; [reflexivity|]. apply Forall_app. split.
      * eapply Forall_impl; [exact Hloads|]. intros [] ?; cbn in *; congruence.
      * repeat constructor.
    + assert (e0 = e) as -> by congruence.
      split; [reflexivity|].
      eexists (EvIsFile _ :: loads ++ [_; _; _]).
      split; [cbn; rewrite <- app_assoc; reflexivity|].
      constructor; [reflexivity|]. apply Forall_app. split.
      * eapply Forall_impl; [exact Hloads|]. intros [] ?; cbn in *; congruence.
      * repeat constructor.
  - run_upscale value host file params w; try exact I.
    + eexists. split; [exact Henc|].
      rewrite drop_app_length, last_cons, last_app. reflexivity.
    + eexists. split; [exact Henc|].
      rewrite drop_app_length, last_cons, last_app. reflexivity.
Qed.

(** ** Input that does not decode *)



(** ** The cache check of the weight resolver *)

(** C9. The weight resolver looks up one file, [weights/<model_name>.pth],
    and apart from that only calls [load_file_from_url]; when the file is
    there it calls nothing else, leaves the disk as it is and returns that
    path.  So for [realesr_general_x4v3] with a strength that asks for
    blending, a cache hit makes [upscale] pass to [RealESRGANer] the cached
    path and the path obtained from it by substituting the name of the
    noise-suppressed file, while no file was fetched during the call. *)
Theorem cache_hit_checks_one_file (value : ModelName -> string) (host : Host) :
  (forall (name : string) (file_url : list string) (w : World),
     exists loads,
       new_events (_get_model_path host name file_url) w =
         EvIsFile (OsPath.join "weights" (name ++ ".pth")) :: loads /\
       Forall (fun ev => is_load ev = true) loads /\
       (abspath host (OsPath.join "weights" (name ++ ".pth")) ∈ files w ->
        loads = [] /\
        files (snd (_get_model_path host name file_url w)) = files w /\
        fst (_get_model_path host name file_url w) =
          Return (OsPath.join "weights" (name ++ ".pth")))) /\
  (forall (file : list byte) (params : UpscaleRequest) (w : World) (strength : float)
          (args : RealESRGANer_args),
     model_name params = value realesr_general_x4v3 ->
     denoise_strength params = Some strength ->
     PrimFloat.eqb strength 1 = false ->
     abspath host (OsPath.join "weights" (model_name params ++ ".pth")) ∈ files w ->
     EvRealESRGANer args ∈ new_events (upscale value host file params) w ->
     ra_model_path args =
       PathList
         [OsPath.join "weights" (model_name params ++ ".pth");
          PyStr.replace (OsPath.join "weights" (model_name params ++ ".pth"))
            "realesr-general-x4v3" "realesr-general-wdn-x4v3"] /\
     Forall (fun ev => is_load ev = false) (new_events (upscale value host file params) w)).
Proof.
  split.
  - intros name file_url w.
    destruct (get_model_path_run host name file_url w) as (r & fs & loads & Hrun & Hl & Hhit).
    exists loads. rewrite (new_events_run _ _ _ _ _ Hrun), Hrun.
    split; [reflexivity|]. split; [assumption|].
    intros Hin. destruct (Hhit Hin) as (-> & -> & ->). auto.
  - intros file params w strength args Hname Hs Hne Hcached Hin.
    split.
    + destruct (upscale_constructor_call _ _ _ _ _ _ Hin) as (me & mp & dev & _ & Hmp & _ & ->).
      destruct (get_model_path_run host (model_name params) (file_url me) w)
        as (r & fs & loads & Hrun & _ & Hhit).
      destruct (Hhit Hcached) as (-> & _).
      rewrite Hrun in Hmp. cbn in Hmp. injection Hmp as <-.
      cbn [ra_model_path]. unfold upscale_dni.
      rewrite Hs, Hname, String.eqb_refl, Hne. reflexivity.
    + clear Hin. unfold new_events.
      run_upscale value host file params w;
        rewrite ?drop_app_length, ?drop_all;
        try (destruct (Hhit Hcached) as (? & ? & ->); try discriminate);
        repeat constructor.
Qed.

(** ** Repeated weight resolution *)

Lemma downloads_app (l k : list event) : downloads (l ++ k) = downloads l + downloads k.
Proof. unfold downloads. rewrite List.filter_app, length_app. reflexivity. Qed.

(** With the loader of basicsr the loop succeeds, downloads at most one
    file per url and leaves the file of every url on disk. *)
Lemma for_url_in_basicsr (host : Host) (file_url : list string) (model_dir model_path : string)
  (w : World) :
  basicsr_loader host ->
  exists p fs loads,
    for_url_in host file_url model_dir model_path w = (Return p, mkWorld fs (trace w ++ loads)) /\
    files w ⊆ fs /\
    (forall url, url ∈ file_url ->
                 abspath host (OsPath.join model_dir (OsPath.basename url)) ∈ fs) /\
    downloads loads <= length file_url.
Proof.
  intros Hb. revert model_path w.
  induction file_url as [|url rest IH]; intros model_path w.
  - exists model_path, (files w), []. cbn. unfold ret. rewrite app_nil_r.
    destruct w. cbn. repeat split; [set_solver | | lia].
    intros url Hin. apply elem_of_nil in Hin. contradiction.
  - cbn [for_url_in]. unfold bind, call_load_file_from_url.
    rewrite Hb. unfold basicsr_load_file_from_url.
    case_bool_decide as Hin; cbn [lo_result lo_files lo_fetched].
    + edestruct (IH (abspath host (OsPath.join model_dir (OsPath.basename url))))
        as (p & fs & loads & Hrun & Hsub & Hall & Hcount).
      rewrite Hrun. cbn [trace files] in *. rewrite <- app_assoc.
      eexists p, fs, (_ :: loads). split; [reflexivity|].
      split; [assumption|]. split.
      * intros url' Hin'. apply elem_of_cons in Hin' as [->|Hin']; [|auto].
        apply Hsub, Hin.
      * unfold downloads in *. cbn [List.filter is_download length]. lia.
    + edestruct (IH (abspath host (OsPath.join model_dir (OsPath.basename url))))
        as (p & fs & loads & Hrun & Hsub & Hall & Hcount).
      rewrite Hrun. cbn [trace files] in *. rewrite <- app_assoc.
      eexists p, fs, (_ :: loads). split; [reflexivity|].
      split; [set_solver|]. split.
      * intros url' Hin'. apply elem_of_cons in Hin' as [->|Hin']; [|auto].
        apply Hsub. set_solver.
      * unfold downloads in *. cbn [List.filter is_download length]. lia.
Qed.

(** With the loader of basicsr, when the file of every url is on disk the
    loop downloads nothing and leaves the disk as it is. *)
Lemma for_url_in_cached (host : Host) (file_url : list string) (model_dir model_path : string)
  (w : World) :
  basicsr_loader host ->
  (forall url, url ∈ file_url ->
               abspath host (OsPath.join model_dir (OsPath.basename url)) ∈ files w) ->
  exists p loads,
    for_url_in host file_url model_dir model_path w =
      (Return p, mkWorld (files w) (trace w ++ loads)) /\
    downloads loads = 0.
Proof.
  intros Hb. revert model_path w.
  induction file_url as [|url rest IH]; intros model_path w Hall.
  - exists model_path, []. cbn. unfold ret. rewrite app_nil_r. destruct w. auto.
  - cbn [for_url_in]. unfold bind, call_load_file_from_url.
    rewrite Hb. unfold basicsr_load_file_from_url.
    rewrite bool_decide_eq_true_2 by (apply Hall; left).
    cbn [lo_result lo_files lo_fetched].
    edestruct (IH (abspath host (OsPath.join model_dir (OsPath.basename url)))
                 (mkWorld (files w)
                    (trace w ++ [EvLoadFile url model_dir false])))
      as (p & loads & Hrun & Hcount).
    { cbn. intros url' Hin'. apply Hall. right. exact Hin'. }
    rewrite Hrun. cbn [trace files]. rewrite <- app_assoc.
    exists p, (EvLoadFile url model_dir false :: loads). split; [reflexivity|].
    exact Hcount.
Qed.

(** C6, amended. When the file [weights/<model_name>.pth] is on disk,
    [_get_model_path] downloads nothing.  With the loader of basicsr, a call
    downloads at most one file per url of the descriptor, and a call that
    follows another one for the same model downloads nothing. *)
Theorem cached_weights_not_downloaded (host : Host) (name : string)
  (file_url : list string) (w : World) :
  (abspath host (OsPath.join "weights" (name ++ ".pth")) ∈ files w ->
   downloads (new_events (_get_model_path host name file_url) w) = 0) /\
  (basicsr_loader host ->
   downloads (new_events (_get_model_path host name file_url) w) <= length file_url /\
   downloads (new_events (_get_model_path host name file_url)
                (snd (_get_model_path host name file_url w))) = 0).
Proof.
  split.
  - intros Hin.
    destruct (get_model_path_run host name file_url w) as (r & fs & loads & Hrun & _ & Hhit).
    destruct (Hhit Hin) as (_ & _ & ->).
    rewrite (new_events_run _ _ _ _ _ Hrun). reflexivity.
  - intros Hb.
    assert (Hstep : forall w0,
      exists fs loads,
        snd (_get_model_path host name file_url w0) =
          mkWorld fs (trace w0 ++ EvIsFile (cache_path name) :: loads) /\
        downloads loads <= length file_url /\
        (abspath host (cache_path name) ∈ files w0 -> fs = files w0 /\ loads = []) /\
        (abspath host (cache_path name) ∉ files w0 ->
         files w0 ⊆ fs /\
         forall url, url ∈ file_url ->
           abspath host (OsPath.join (OsPath.join (root_dir host) "weights")
                           (OsPath.basename url)) ∈ fs)).
    { intros w0. unfold _get_model_path, bind, isfile. fold (cache_path name).
      case_bool_decide as Hin; cbn [negb].
      - exists (files w0), []. cbn. repeat split; try lia; try contradiction.
      - destruct (for_url_in_basicsr host file_url
                    (OsPath.join (root_dir host) "weights") (cache_path name)
                    (mkWorld (files w0) (trace w0 ++ [EvIsFile (cache_path name)])) Hb)
          as (p & fs & loads & Hrun & Hsub & Hall & Hcount).
        rewrite Hrun. cbn [snd trace files] in *. rewrite <- app_assoc.
        exists fs, loads. repeat split; auto; contradiction. }
    destruct (Hstep w) as (fs & loads & Hw1 & Hcount & Hhit & Hmiss).
    split.
    + unfold new_events. rewrite Hw1. cbn [trace]. rewrite drop_app_length.
      unfold downloads in *. cbn. exact Hcount.
    + rewrite Hw1.
      set (w1 := mkWorld fs (trace w ++ EvIsFile (cache_path name) :: loads)).
      unfold new_events, _get_model_path, bind, isfile. fold (cache_path name).
      case_bool_decide as Hin1; cbn [negb].
      * cbn. rewrite drop_app_length. reflexivity.
      * assert (Hnot : abspath host (cache_path name) ∉ files w).
        { intros Hin. destruct (Hhit Hin) as (-> & _). apply Hin1. exact Hin. }
        destruct (Hmiss Hnot) as (_ & Hall).
        destruct (for_url_in_cached host file_url
                    (OsPath.join (root_dir host) "weights") (cache_path name)
                    (mkWorld (files w1) (trace w1 ++ [EvIsFile (cache_path name)])) Hb)
          as (p & loads2 & Hrun & Hzero).
        { exact Hall. }
        rewrite Hrun. cbn [snd trace]. rewrite <- app_assoc, drop_app_length.
        unfold downloads in *. cbn. exact Hzero.
Qed.

(** C6 as stated fails for the blend-capable model: with an empty cache the
    first of two successive calls downloads both weight files. *)
Lemma blend_model_downloads_twice :
  let call := _get_model_path host_cpu "realesr-general-x4v3" blend_urls in
  (exists d, _get_model weight_file_name "realesr-general-x4v3" = Return d /\
             file_url d = blend_urls) /\
  ~ (downloads (new_events call empty_world) +
     downloads (new_events call (snd (call empty_world))) <= 1).
Proof.
  cbn zeta. split.
  - eexists. split; reflexivity.
  - assert (E : downloads
                  (new_events (_get_model_path host_cpu "realesr-general-x4v3" blend_urls)
                     empty_world) = 2) by (vm_compute; reflexivity).
    rewrite E. lia.
Qed.

(** ** Binary64: a strength and its complement sum to one *)

Section Binary64.

Local Open Scope Z_scope.

Lemma iter_pos_nat {A : Type} (f : A -> A) (p : positive) (x : A) :
  SpecFloat.iter_pos f p x = Nat.iter (Pos.to_nat p) f x.
Proof.
  revert x. induction p as [p IH|p IH|]; intros x; cbn [SpecFloat.iter_pos].
  - rewrite !IH, Pos2Nat.inj_xI.
    replace (S (2 * Pos.to_nat p))%nat with (Pos.to_nat p + (Pos.to_nat p + 1))%nat by lia.
    rewrite !Nat.iter_add. reflexivity.
  - rewrite !IH, Pos2Nat.inj_xO.
    replace (2 * Pos.to_nat p)%nat with (Pos.to_nat p + Pos.to_nat p)%nat by lia.
    rewrite Nat.iter_add. reflexivity.
  - reflexivity.
Qed.

Lemma shr_1_nonneg (a : Z) (r s : bool) :
  0 <= a ->
  shr_1 (Build_shr_record a r s) = Build_shr_record (a / 2) (Z.odd a) (r || s).
Proof.
  intros Ha. unfold shr_1.
  destruct a as [|p|p]; [reflexivity| |lia].
  destruct p as [p|p|].
  - replace (Z.pos p~1 / 2) with (Z.pos p); [reflexivity|].
    apply (Z.div_unique _ _ _ 1); lia.
  - replace (Z.pos p~0 / 2) with (Z.pos p); [reflexivity|].
    apply (Z.div_unique _ _ _ 0); lia.
  - reflexivity.
Qed.

Lemma sticky_step (n : nat) (m : Z) :
  0 <= m ->
  round_bit n m || sticky_bit n m = negb (m mod 2 ^ Z.of_nat n =? 0).
Proof.
  intros Hm. destruct n as [|n].
  - cbn. rewrite Z.mod_1_r. reflexivity.
  - cbn [round_bit sticky_bit].
    rewrite Nat2Z.inj_succ, Z.pow_succ_r by lia.
    rewrite (Z.mul_comm 2), Z.rem_mul_r by lia.
    rewrite Zmod_odd.
    pose proof (Z.mod_pos_bound m (2 ^ Z.of_nat n) ltac:(lia)) as Hb.
    assert (0 < 2 ^ Z.of_nat n) by lia.
    destruct (Z.odd (m / 2 ^ Z.of_nat n)); cbn [orb].
    + symmetry. apply negb_true_iff, Z.eqb_neq. lia.
    + rewrite Z.mul_0_r, Z.add_0_r. reflexivity.
Qed.

Lemma shr_iter (n : nat) (m : Z) :
  0 <= m ->
  Nat.iter n shr_1 (Build_shr_record m false false) =
    Build_shr_record (m / 2 ^ Z.of_nat n) (round_bit n m) (sticky_bit n m).
Proof.
  intros Hm. induction n as [|n IH].
  - cbn. rewrite Z.div_1_r. reflexivity.
  - cbn [Nat.iter nat_rect]. change (nat_rect _ _ _ n) with (Nat.iter n shr_1 (Build_shr_record m false false)).
    rewrite IH, shr_1_nonneg by (apply Z.div_pos; lia).
    rewrite sticky_step by assumption.
    rewrite Nat2Z.inj_succ, Z.pow_succ_r by lia.
    rewrite Z.div_div by lia. rewrite (Z.mul_comm 2). reflexivity.
Qed.

Lemma digits2_pos_bounds (p : positive) :
  2 ^ (Z.pos (digits2_pos p) - 1) <= Z.pos p < 2 ^ Z.pos (digits2_pos p).
Proof.
  induction p as [p IH|p IH|]; cbn [digits2_pos].
  - rewrite Pos2Z.inj_succ, Pos2Z.inj_xI.
    replace (Z.succ (Z.pos (digits2_pos p)) - 1) with (Z.succ (Z.pos (digits2_pos p) - 1)) by lia.
    rewrite !Z.pow_succ_r by lia. lia.
  - rewrite Pos2Z.inj_succ. change (Z.pos p~0) with (2 * Z.pos p).
    replace (Z.succ (Z.pos (digits2_pos p)) - 1) with (Z.succ (Z.pos (digits2_pos p) - 1)) by lia.
    rewrite !Z.pow_succ_r by lia. lia.
  - cbn. lia.
Qed.

Lemma digits2_pos_unique (p : positive) (d : Z) :
  2 ^ (d - 1) <= Z.pos p < 2 ^ d -> Z.pos (digits2_pos p) = d.
Proof.
  intros [Hlo Hhi].
  pose proof (digits2_pos_bounds p) as [Hlo' Hhi'].
  assert (0 < d).
  { destruct (Z_lt_le_dec 0 d); [assumption|].
    exfalso. destruct (Z.eq_dec d 0) as [->|].
    - cbn in Hhi. lia.
    - rewrite Z.pow_neg_r in Hhi by lia. lia. }
  destruct (Z.lt_trichotomy (Z.pos (digits2_pos p)) d) as [Hlt|[Heq|Hgt]]; [|assumption|].
  - exfalso.
    assert (2 ^ Z.pos (digits2_pos p) <= 2 ^ (d - 1)) by (apply Z.pow_le_mono_r; lia).
    lia.
  - exfalso.
    assert (2 ^ d <= 2 ^ (Z.pos (digits2_pos p) - 1)) by (apply Z.pow_le_mono_r; lia).
    lia.
Qed.

Lemma iter_xO (m k : positive) :
  Z.pos (Pos.iter xO m k) = Z.pos m * 2 ^ Z.pos k.
Proof.
  induction k as [|k IH] using Pos.peano_ind.
  - cbn. lia.
  - rewrite Pos.iter_succ, Pos2Z.inj_xO, IH, Pos2Z.inj_succ, Z.pow_succ_r by lia. lia.
Qed.

Lemma fexp_eq (e : Z) : fexp prec emax e = Z.max (e - 53) (-1074).
Proof. reflexivity. Qed.

Lemma shl_align_lt (mx : positive) (ex ex' : Z) :
  ex' < ex ->
  exists mz, shl_align mx ex ex' = (mz, ex') /\ Z.pos mz = Z.pos mx * 2 ^ (ex - ex').
Proof.
  intros H. unfold shl_align.
  destruct (ex' - ex) as [|d|d] eqn:E; try lia.
  eexists. split; [reflexivity|].
  rewrite iter_xO. f_equal. f_equal. lia.
Qed.

Lemma shl_align_ge (mx : positive) (ex ex' : Z) :
  ex <= ex' -> shl_align mx ex ex' = (mx, ex).
Proof.
  intros H. unfold shl_align.
  destruct (ex' - ex) as [|d|d] eqn:E; try lia; reflexivity.
Qed.

Lemma round_nearest_even_record (q : Z) (rb sb : bool) :
  round_nearest_even q (loc_of_shr_record (Build_shr_record q rb sb)) = rne q rb sb.
Proof.
  unfold rne. destruct rb, sb; cbn; try reflexivity.
  rewrite <- Z.negb_odd. destruct (Z.odd q); reflexivity.
Qed.

(** Rounding a mantissa that needs no shift. *)

Lemma round_aux_canonical (sx : bool) (mz : positive) (ez : Z) :
  Z.pos (digits2_pos mz) = 53 -> -1074 <= ez <= 971 ->
  binary_round_aux prec emax sx (Z.pos mz) ez loc_Exact = S754_finite sx mz ez.
Proof.
  intros Hd He. unfold binary_round_aux, shr_fexp. cbn [Zdigits2].
  rewrite Hd, fexp_eq.
  replace (Z.max (53 + ez - 53) (-1074) - ez) with 0 by lia.
  cbn [shr shr_record_of_loc shr_m loc_of_shr_record round_nearest_even Zdigits2].
  rewrite Hd, fexp_eq.
  replace (Z.max (53 + ez - 53) (-1074) - ez) with 0 by lia.
  cbn [shr shr_record_of_loc shr_m].
  replace (ez <=? emax - prec) with true; [reflexivity|].
  symmetry. apply Z.leb_le. unfold emax, prec. lia.
Qed.

(** Rounding a mantissa that is shifted right by [k] places. *)

Lemma round_aux_shift (sx : bool) (N : positive) (e : Z) (k : positive) :
  fexp prec emax (Z.pos (digits2_pos N) + e) - e = Z.pos k ->
  binary_round_aux prec emax sx (Z.pos N) e loc_Exact =
    round_finish sx
      (rne (Z.pos N / 2 ^ Z.pos k) (round_bit (Pos.to_nat k) (Z.pos N))
         (sticky_bit (Pos.to_nat k) (Z.pos N)))
      (e + Z.pos k).
Proof.
  intros Hk. unfold binary_round_aux, round_finish, shr_fexp at 1. cbn [Zdigits2].
  rewrite Hk. cbn [shr shr_record_of_loc].
  rewrite iter_pos_nat, shr_iter by lia.
  rewrite positive_nat_Z. cbn [shr_m].
  rewrite round_nearest_even_record. reflexivity.
Qed.

Lemma round_bit_pos (k : positive) (N : Z) :
  round_bit (Pos.to_nat k) N = Z.odd (N / 2 ^ (Z.pos k - 1)).
Proof.
  pose proof (positive_nat_Z k) as Hk.
  destruct (Pos.to_nat k) as [|n]; [lia|].
  cbn [round_bit]. do 3 f_equal. lia.
Qed.

Lemma sticky_bit_pos (k : positive) (N : Z) :
  sticky_bit (Pos.to_nat k) N = negb (N mod 2 ^ (Z.pos k - 1) =? 0).
Proof.
  pose proof (positive_nat_Z k) as Hk.
  destruct (Pos.to_nat k) as [|n]; [lia|].
  cbn [sticky_bit]. do 4 f_equal. lia.
Qed.

(** Halving: [2 ^ k = 2 * 2 ^ (k - 1)]. *)

Lemma pow2_half (k : Z) : 0 < k -> 2 ^ k = 2 * 2 ^ (k - 1) /\ 0 < 2 ^ (k - 1).
Proof.
  intros Hk. split.
  - replace k with (Z.succ (k - 1)) at 1 by lia. apply Z.pow_succ_r. lia.
  - apply Z.pow_pos_nonneg; lia.
Qed.

(** The error of rounding [M / T] to nearest, [T = 2 * H]. *)

Lemma rne_error (M H : Z) :
  0 <= M -> 0 < H ->
  let q := M / (2 * H) in
  let D := rne q (Z.odd (M / H)) (negb (M mod H =? 0)) in
  (D = q \/ D = q + 1) /\ - H <= D * (2 * H) - M <= H.
Proof.
  intros HM HH q D.
  pose proof (Z.div_mod M (2 * H) ltac:(lia)) as E1.
  pose proof (Z.mod_pos_bound M (2 * H) ltac:(lia)) as B1.
  pose proof (Z.div_mod M H ltac:(lia)) as E2.
  pose proof (Z.mod_pos_bound M H ltac:(lia)) as B2.
  fold q in E1.
  set (rem := M mod (2 * H)) in *.
  set (u := M / H) in *. set (v := M mod H) in *.
  assert (Hw : u = 2 * q \/ u = 2 * q + 1) by nia.
  subst D. unfold rne.
  destruct Hw as [Hu|Hu]; rewrite Hu.
  - replace (Z.odd (2 * q)) with false
      by (symmetry; rewrite Z.odd_mul; reflexivity).
    cbn [andb]. split; [auto|]. nia.
  - replace (Z.odd (2 * q + 1)) with true
      by (symmetry; rewrite Z.add_comm, Z.odd_add_mul_2; reflexivity).
    cbn [andb].
    destruct (Z.eqb_spec v 0) as [Hv|Hv]; cbn [negb orb].
    + destruct (Z.odd q); (split; [auto|]); nia.
    + split; [auto|]. nia.
Qed.

Lemma round_finish_normal (D : Z) :
  2 ^ 52 <= D < 2 ^ 53 ->
  round_finish false D (-53) = S754_finite false (Z.to_pos D) (-53).
Proof.
  intros HD. unfold round_finish, shr_fexp.
  destruct D as [|Dp|Dp]; try lia. cbn [Zdigits2 Z.to_pos].
  rewrite (digits2_pos_unique Dp 53) by (change (53 - 1) with 52; lia).
  reflexivity.
Qed.

Lemma round_finish_one : round_finish false (2 ^ 53) (-53) = sf_one.
Proof. reflexivity. Qed.

(** A strength below 1/2: the difference [1 - s] is the rounding of
    [M = 2^53 * T - m] shifted by [T = 2 ^ (-53 - e)], off by at most
    [T / 2]. *)
Lemma sub_from_one (m : positive) (e : Z) :
  -1074 <= e <= -54 -> Z.pos m < 2 ^ 53 ->
  exists D : Z,
    2 ^ 52 <= D <= 2 ^ 53 /\
    - 2 ^ (-53 - e - 1) <= D * 2 ^ (-53 - e) - (2 ^ 53 * 2 ^ (-53 - e) - Z.pos m)
      <= 2 ^ (-53 - e - 1) /\
    SFsub prec emax sf_one (S754_finite false m e) = round_finish false D (-53).
Proof.
  intros He Hm.
  destruct (-53 - e) as [|k|k] eqn:Ek; try lia.
  destruct (pow2_half (Z.pos k) ltac:(lia)) as [HT HH].
  set (H := 2 ^ (Z.pos k - 1)) in *. set (T := 2 ^ Z.pos k) in *.
  unfold SFsub, sf_one.
  rewrite Z.min_r by lia.
  destruct (shl_align_lt 4503599627370496 (-52) e ltac:(lia)) as (mz & Emz & Hmz).
  rewrite Emz, (shl_align_ge m e e) by lia.
  cbn [fst cond_Zopp].
  replace (-52 - e) with (Z.succ (Z.pos k)) in Hmz by lia.
  rewrite Z.pow_succ_r in Hmz by lia. fold T in Hmz.
  remember (Z.pos mz - Z.pos m) as Mz eqn:EM.
  assert (HMlo : 2 ^ 52 * T <= Mz) by lia.
  assert (HMhi : Mz < 2 ^ 53 * T) by lia.
  destruct Mz as [|Mp|Mp]; try lia.
  unfold binary_normalize, binary_round.
  assert (Hd : Z.pos (digits2_pos Mp) = 53 + Z.pos k).
  { apply digits2_pos_unique.
    replace (53 + Z.pos k - 1) with (52 + Z.pos k) by lia.
    rewrite !Z.pow_add_r by lia. fold T. lia. }
  rewrite Hd, fexp_eq.
  replace (Z.max (53 + Z.pos k + e - 53) (-1074)) with (-53) by lia.
  rewrite shl_align_ge by lia.
  rewrite (round_aux_shift false Mp e k)
    by (rewrite Hd, fexp_eq; lia).
  rewrite round_bit_pos, sticky_bit_pos. fold H T.
  replace (e + Z.pos k) with (-53) by lia.
  rewrite HT.
  destruct (rne_error (Z.pos Mp) H ltac:(lia) HH) as [HD Herr].
  cbn zeta in HD, Herr.
  eexists. split; [|split; [|reflexivity]].
  - pose proof (Z.div_mod (Z.pos Mp) (2 * H) ltac:(lia)) as E1.
    pose proof (Z.mod_pos_bound (Z.pos Mp) (2 * H) ltac:(lia)) as B1.
    assert (2 ^ 52 <= Z.pos Mp / (2 * H) < 2 ^ 53) by nia.
    lia.
  - replace (2 ^ 53 * (2 * H) - Z.pos m) with (Z.pos Mp) by lia.
    exact Herr.
Qed.

(** Rounding [2 ^ 53 * T + err] at exponent [e], [T = 2 ^ (-53 - e)] and
    [|err|] at most [T / 2], gives sf_one. *)

Lemma round_near_one (N : positive) (e : Z) :
  -1074 <= e <= -54 ->
  - 2 ^ (-53 - e - 1) <= Z.pos N - 2 ^ 53 * 2 ^ (-53 - e) <= 2 ^ (-53 - e - 1) ->
  binary_round prec emax false N e = sf_one.
Proof.
  intros He Herr.
  destruct (-53 - e) as [|k|k] eqn:Ek; try lia.
  destruct (pow2_half (Z.pos k) ltac:(lia)) as [HT HH].
  set (H := 2 ^ (Z.pos k - 1)) in *. set (T := 2 ^ Z.pos k) in *.
  unfold binary_round.
  destruct (Z_lt_le_dec (Z.pos N) (2 ^ 53 * T)) as [Hlt|Hge].
  - (* below sf_one: 53 + k digits, rounds up *)
    assert (Hd : Z.pos (digits2_pos N) = 53 + Z.pos k).
    { apply digits2_pos_unique.
      replace (53 + Z.pos k - 1) with (52 + Z.pos k) by lia.
      rewrite !Z.pow_add_r by lia. fold T. lia. }
    rewrite Hd, fexp_eq.
    replace (Z.max (53 + Z.pos k + e - 53) (-1074)) with (-53) by lia.
    rewrite shl_align_ge by lia.
    rewrite (round_aux_shift false N e k) by (rewrite Hd, fexp_eq; lia).
    rewrite round_bit_pos, sticky_bit_pos. fold H T.
    replace (e + Z.pos k) with (-53) by lia.
    assert (Hq : Z.pos N / T = 2 ^ 53 - 1).
    { symmetry. apply (Z.div_unique _ _ _ (Z.pos N - T * (2 ^ 53 - 1))); lia. }
    assert (Hu : Z.pos N / H = 2 * (2 ^ 53 - 1) + 1).
    { symmetry. apply (Z.div_unique _ _ _ (Z.pos N - H * (2 * (2 ^ 53 - 1) + 1))); lia. }
    rewrite Hq, Hu. unfold rne.
    replace (Z.odd (2 * (2 ^ 53 - 1) + 1)) with true by reflexivity.
    replace (Z.odd (2 ^ 53 - 1)) with true by reflexivity.
    rewrite orb_true_r. cbn [andb].
    reflexivity.
  - (* at least sf_one: 54 + k digits, rounds down *)
    assert (Hd : Z.pos (digits2_pos N) = 54 + Z.pos k).
    { apply digits2_pos_unique.
      replace (54 + Z.pos k - 1) with (53 + Z.pos k) by lia.
      rewrite !Z.pow_add_r by lia. fold T. lia. }
    rewrite Hd, fexp_eq.
    replace (Z.max (54 + Z.pos k + e - 53) (-1074)) with (-52) by lia.
    rewrite shl_align_ge by lia.
    assert (Ek1 : -52 - e = Z.pos (Pos.succ k)) by lia.
    rewrite (round_aux_shift false N e (Pos.succ k)) by (rewrite Hd, fexp_eq; lia).
    rewrite round_bit_pos, sticky_bit_pos.
    replace (Z.pos (Pos.succ k) - 1) with (Z.pos k) by lia.
    rewrite Pos2Z.inj_succ, Z.pow_succ_r by lia. fold T.
    replace (e + Z.succ (Z.pos k)) with (-52) by lia.
    assert (Hq : Z.pos N / (2 * T) = 2 ^ 52).
    { symmetry. apply (Z.div_unique _ _ _ (Z.pos N - 2 * T * 2 ^ 52)); lia. }
    assert (Hu : Z.pos N / T = 2 ^ 53).
    { symmetry. apply (Z.div_unique _ _ _ (Z.pos N - T * 2 ^ 53)); lia. }
    rewrite Hq, Hu. unfold rne.
    replace (Z.odd (2 ^ 53)) with false by reflexivity.
    cbn [andb]. reflexivity.
Qed.

(** Adding the strength back to such a difference. *)
Lemma add_back (m : positive) (e D : Z) :
  -1074 <= e <= -54 -> Z.pos m < 2 ^ 53 ->
  2 ^ 52 <= D <= 2 ^ 53 ->
  - 2 ^ (-53 - e - 1) <= D * 2 ^ (-53 - e) - (2 ^ 53 * 2 ^ (-53 - e) - Z.pos m)
    <= 2 ^ (-53 - e - 1) ->
  SFadd prec emax (S754_finite false m e) (round_finish false D (-53)) = sf_one.
Proof.
  intros He Hm HD Herr.
  assert (HT : 0 < 2 ^ (-53 - e)) by (apply Z.pow_pos_nonneg; lia).
  destruct (Z.eq_dec D (2 ^ 53)) as [->|Hne].
  - rewrite round_finish_one. unfold SFadd, sf_one.
    rewrite Z.min_l by lia.
    destruct (shl_align_lt 4503599627370496 (-52) e ltac:(lia)) as (mz & Emz & Hmz).
    rewrite Emz, (shl_align_ge m e e) by lia.
    cbn [fst cond_Zopp]. rewrite <- Pos2Z.inj_add. unfold binary_normalize.
    apply round_near_one; [assumption|].
    rewrite Pos2Z.inj_add, Hmz.
    replace (-52 - e) with (Z.succ (-53 - e)) by lia.
    rewrite Z.pow_succ_r by lia. lia.
  - rewrite round_finish_normal by lia.
    destruct D as [|Dp|Dp]; try lia. cbn [Z.to_pos].
    unfold SFadd.
    rewrite Z.min_l by lia.
    destruct (shl_align_lt Dp (-53) e ltac:(lia)) as (mz & Emz & Hmz).
    rewrite Emz, (shl_align_ge m e e) by lia.
    cbn [fst cond_Zopp]. rewrite <- Pos2Z.inj_add. unfold binary_normalize.
    apply round_near_one; [assumption|].
    rewrite Pos2Z.inj_add, Hmz. lia.
Qed.

(** A strength in [1/2, 1): the subtraction is exact. *)

Lemma add_back_half (m : positive) :
  Z.pos (digits2_pos m) = 53 ->
  SFadd prec emax (S754_finite false m (-53))
    (SFsub prec emax sf_one (S754_finite false m (-53))) = sf_one.
Proof.
  intros Hdm.
  pose proof (digits2_pos_bounds m) as Hm. rewrite Hdm in Hm.
  change (53 - 1) with 52 in Hm.
  unfold SFsub, sf_one.
  change (Z.min (-52) (-53)) with (-53).
  change (fst (shl_align 4503599627370496 (-52) (-53))) with 9007199254740992%positive.
  rewrite (shl_align_ge m (-53) (-53)) by lia.
  cbn [fst cond_Zopp].
  remember (Z.pos 9007199254740992 - Z.pos m) as Mz eqn:EM.
  assert (HM : 1 <= Mz <= 2 ^ 52) by lia.
  destruct Mz as [|Mp|Mp]; try lia.
  unfold binary_normalize, binary_round.
  pose proof (digits2_pos_bounds Mp) as HMp.
  set (dm := Z.pos (digits2_pos Mp)) in *.
  assert (Hdm53 : 1 <= dm <= 53).
  { split; [subst dm; lia|].
    destruct (Z_lt_le_dec 53 dm) as [Hgt|]; [|lia].
    assert (2 ^ 53 <= 2 ^ (dm - 1)) by (apply Z.pow_le_mono_r; lia). lia. }
  rewrite fexp_eq.
  replace (Z.max (dm + -53 - 53) (-1074)) with (dm - 106) by lia.
  assert (Hpow : 2 ^ (dm - 1) * 2 ^ (53 - dm) = 2 ^ 52 /\ 2 ^ dm * 2 ^ (53 - dm) = 2 ^ 53
                 /\ 0 < 2 ^ (53 - dm)).
  { rewrite <- !Z.pow_add_r by lia.
    replace (dm - 1 + (53 - dm)) with 52 by lia.
    replace (dm + (53 - dm)) with 53 by lia.
    split; [reflexivity|]. split; [reflexivity|]. apply Z.pow_pos_nonneg; lia. }
  destruct Hpow as (Hp1 & Hp2 & Hp3).
  assert (Hr1 : exists mz,
             shl_align Mp (-53) (dm - 106) = (mz, dm - 106) /\
             Z.pos mz = Z.pos Mp * 2 ^ (53 - dm)).
  { destruct (Z.eq_dec dm 53) as [E|E].
    - rewrite E. exists Mp. split; [reflexivity|]. cbn. lia.
    - destruct (shl_align_lt Mp (-53) (dm - 106) ltac:(lia)) as (mz & Emz & Hmz).
      exists mz. split; [assumption|]. rewrite Hmz. do 2 f_equal. lia. }
  destruct Hr1 as (mz & Emz & Hmz). rewrite Emz.
  rewrite round_aux_canonical; [| |lia].
  2:{ apply digits2_pos_unique. change (53 - 1) with 52. nia. }
  (* the addition *)
  unfold SFadd.
  rewrite Z.min_r by lia.
  rewrite (shl_align_ge mz (dm - 106) (dm - 106)) by lia.
  assert (Hr2 : exists mz',
             shl_align m (-53) (dm - 106) = (mz', dm - 106) /\
             Z.pos mz' = Z.pos m * 2 ^ (53 - dm)).
  { destruct (Z.eq_dec dm 53) as [E|E].
    - rewrite E. exists m. split; [reflexivity|]. cbn. lia.
    - destruct (shl_align_lt m (-53) (dm - 106) ltac:(lia)) as (mz' & Emz' & Hmz').
      exists mz'. split; [assumption|]. rewrite Hmz'. do 2 f_equal. lia. }
  destruct Hr2 as (mz' & Emz' & Hmz'). rewrite Emz'.
  cbn [fst cond_Zopp]. rewrite <- Pos2Z.inj_add. unfold binary_normalize, binary_round.
  set (j := 53 - dm) in *.
  assert (HN : Z.pos (mz' + mz) = 2 ^ 53 * 2 ^ j) by (rewrite Pos2Z.inj_add; nia).
  assert (Hd : Z.pos (digits2_pos (mz' + mz)) = 54 + j).
  { apply digits2_pos_unique. rewrite HN.
    replace (54 + j - 1) with (53 + j) by lia.
    rewrite !Z.pow_add_r by lia. lia. }
  rewrite Hd, fexp_eq.
  replace (Z.max (54 + j + (dm - 106) - 53) (-1074)) with (-52) by lia.
  rewrite shl_align_ge by lia.
  destruct (-52 - (dm - 106)) as [|k|k] eqn:Ek; try lia.
  rewrite (round_aux_shift false (mz' + mz) (dm - 106) k) by (rewrite Hd, fexp_eq; lia).
  rewrite round_bit_pos, sticky_bit_pos.
  replace (dm - 106 + Z.pos k) with (-52) by lia.
  replace (Z.pos k - 1) with j by lia.
  replace (Z.pos k) with (Z.succ j) by lia.
  rewrite Z.pow_succ_r by lia.
  assert (Hq : Z.pos (mz' + mz) / (2 * 2 ^ j) = 2 ^ 52).
  { symmetry. apply (Z.div_unique _ _ _ 0); lia. }
  assert (Hu : Z.pos (mz' + mz) / 2 ^ j = 2 ^ 53).
  { symmetry. apply (Z.div_unique _ _ _ 0); lia. }
  rewrite Hq, Hu. reflexivity.
Qed.

(** On specified floats: for a valid [x] between 0 and 1, adding [x] to the
    rounded difference [1 - x] gives 1 exactly. *)
Theorem spec_sum_to_one (x : spec_float) :
  valid_binary x = true ->
  SFleb (S754_zero false) x = true ->
  SFleb x sf_one = true ->
  SFadd prec emax x (SFsub prec emax sf_one x) = sf_one.
Proof.
  intros Hv H0 H1.
  destruct x as [s|s| |s m e].
  - destruct s; reflexivity.
  - destruct s; discriminate.
  - discriminate.
  - destruct s; [discriminate|].
    unfold valid_binary, bounded, canonical_mantissa in Hv.
    apply andb_true_iff in Hv as [Hc Hb].
    apply Z.eqb_eq in Hc. rewrite fexp_eq in Hc.
    pose proof (digits2_pos_bounds m) as Hm.
    set (d := Z.pos (digits2_pos m)) in *.
    assert (Hd1 : 1 <= d) by (subst d; lia).
    unfold SFleb, SFcompare, sf_one in H1.
    destruct (Z.compare_spec e (-52)) as [He|He|He]; [| |discriminate].
    + (* e = -52: the strength is 1 *)
      subst e.
      assert (Hd : d = 53) by lia.
      rewrite Pos.compare_cont_spec in H1.
      rewrite Hd in Hm. change (53 - 1) with 52 in Hm.
      destruct (Pos.compare_spec m 4503599627370496) as [Hc1|Hc1|Hc1];
        cbn [Pos.switch_Eq] in H1; [|exfalso|discriminate H1].
      * rewrite Hc1. reflexivity.
      * apply Pos2Z.pos_lt_pos in Hc1.
        change (Z.pos 4503599627370496) with (2 ^ 52) in Hc1. lia.
    + destruct (Z.eq_dec e (-53)) as [->|Hne].
      * apply add_back_half. fold d. lia.
      * assert (He' : -1074 <= e <= -54) by lia.
        assert (Hm53 : Z.pos m < 2 ^ 53).
        { assert (2 ^ d <= 2 ^ 53) by (apply Z.pow_le_mono_r; lia). lia. }
        destruct (sub_from_one m e He' Hm53) as (D & HD & Herr & ->).
        apply add_back; assumption.
Qed.

(** On binary64 numbers, as Python computes [s + (1 - s)]. *)
Theorem sum_to_one (s : float) :
  (0 <=? s)%float = true -> (s <=? 1)%float = true ->
  (s + (1 - s))%float = 1%float.
Proof.
  intros H0 H1.
  apply Prim2SF_inj.
  rewrite add_spec, sub_spec.
  rewrite leb_spec in H0, H1.
  change (Prim2SF 1) with sf_one in *.
  change (Prim2SF 0) with (S754_zero false) in H0.
  apply spec_sum_to_one; [apply Prim2SF_valid | assumption | assumption].
Qed.

(** The range matters: far outside of it the subtraction rounds the 1
    away.  The request schema keeps such strengths out. *)
Remark sum_out_of_range :
  (0x1p60 + (1 - 0x1p60))%float = 0%float.
Proof. reflexivity. Qed.

End Binary64.

(** ** Denoise blending *)

(** C1, amended. What [upscale] passes to [RealESRGANer], [p] being the
    path the weight resolver returned.  For [realesr_general_x4v3]: without
    a strength, or with a strength equal to 1, the single path [p] and no
    [dni_weight]; with any other strength [s], the two paths [p] and [p]
    with the name of the noise-suppressed file substituted, and the weights
    [s] and [1 - s]; their sum in binary64 arithmetic is 1 when [s] is in
    the range from 0 to 1 of the request schema.  For every other model
    name: the single path [p] and no [dni_weight], whatever the strength. *)
Theorem denoise_blend_weights (value : ModelName -> string) (host : Host)
  (file : list byte) (params : UpscaleRequest) (w : World) (args : RealESRGANer_args) :
  EvRealESRGANer args ∈ new_events (upscale value host file params) w ->
  exists (me : ModelEntity) (p : string),
    _get_model value (model_name params) = Return me /\
    fst (_get_model_path host (model_name params) (file_url me) w) = Return p /\
    (model_name params = value realesr_general_x4v3 ->
     match denoise_strength params with
     | None => blend_absent args p
     | Some s =>
         if PrimFloat.eqb s 1 then blend_absent args p
         else
           ra_model_path args =
             PathList [p; PyStr.replace p "realesr-general-x4v3" "realesr-general-wdn-x4v3"] /\
           ra_dni_weight args = Some [s; (1 - s)%float] /\
           (PrimFloat.leb 0 s = true -> PrimFloat.leb s 1 = true ->
            (s + (1 - s))%float = 1%float)
     end) /\
    (model_name params <> value realesr_general_x4v3 -> blend_absent args p).
Proof.
  intros Hin.
  destruct (upscale_constructor_call _ _ _ _ _ _ Hin) as (me & mp & dev & Hme & Hmp & _ & ->).
  exists me, mp. split; [assumption|]. split; [assumption|].
  unfold blend_absent, upscale_dni. cbn [ra_model_path ra_dni_weight].
  split.
  - intros ->. rewrite String.eqb_refl.
    destruct (denoise_strength params) as [s|]; [|auto].
    destruct (PrimFloat.eqb s 1); cbn; auto.
    split; [reflexivity|]. split; [reflexivity|]. apply sum_to_one.
  - intros Hne. apply String.eqb_neq in Hne. rewrite Hne.
    destruct (denoise_strength params); cbn; auto.
Qed.

(** * Examples *)

Lemma weight_file_name_inj (a b : ModelName) :
  weight_file_name a = weight_file_name b -> a = b.
Proof. destruct a, b; cbn; intros H; solve [reflexivity | discriminate H]. Qed.

Lemma get_model_url_count_blend :
  exists d : ModelEntity,
    _get_model weight_file_name "realesr-general-x4v3" = Return d /\
    length (file_url d) = 2.
Proof.
  exact (get_model_url_count weight_file_name weight_file_name_inj realesr_general_x4v3).
Defined.

Lemma unsupported_model_example :
  (forall m, model_name (sample_request "ESRGAN_x8" None AUTO) <> weight_file_name m) /\
  upscale weight_file_name host_cpu [] (sample_request "ESRGAN_x8" None AUTO) empty_world =
    (Raise (Exn ValueError "Invalid model name"), empty_world).
Proof.
  assert (H : forall m, model_name (sample_request "ESRGAN_x8" None AUTO) <> weight_file_name m)
    by (intros []; discriminate).
  split; [exact H|].
  exact (unsupported_model_fails_before_io weight_file_name host_cpu []
           (sample_request "ESRGAN_x8" None AUTO) empty_world H).
Defined.

Lemma half_precision_on_cuda :
  (EvRealESRGANer x4plus_cuda_args ∈
     new_events (upscale weight_file_name host_cuda [] x4plus_request) empty_world) /\
  ra_half x4plus_cuda_args = true.
Proof.
  assert (H : EvRealESRGANer x4plus_cuda_args ∈
                new_events (upscale weight_file_name host_cuda [] x4plus_request) empty_world).
  { apply (list_elem_of_lookup_2 _ 3). vm_compute. reflexivity. }
  split; [exact H|].
  apply (proj1 (proj2 (half_precision_flag weight_file_name host_cuda [] x4plus_request
                         empty_world x4plus_cuda_args H))).
  split; [left; reflexivity | reflexivity].
Defined.

Lemma out_of_memory_reraised :
  (EvEnhance x4plus_cuda_args sample_image 4%float ∈
     new_events (upscale weight_file_name host_out_of_memory [] x4plus_request) empty_world) /\
  enhancement_raises host_out_of_memory
    (EvEnhance x4plus_cuda_args sample_image 4%float) out_of_memory /\
  is_RuntimeError out_of_memory = true /\
  fst (upscale weight_file_name host_out_of_memory [] x4plus_request empty_world) =
    Raise out_of_memory.
Proof.
  assert (H : EvEnhance x4plus_cuda_args sample_image 4%float ∈
                new_events (upscale weight_file_name host_out_of_memory [] x4plus_request)
                  empty_world).
  { apply (list_elem_of_lookup_2 _ 5). vm_compute. reflexivity. }
  split; [exact H|]. split; [reflexivity|]. split; [reflexivity|].
  exact (proj1 (proj1 (enhancement_error_reraised weight_file_name host_out_of_memory []
                         x4plus_request empty_world)
                  (EvEnhance x4plus_cuda_args sample_image 4%float) out_of_memory
                  H eq_refl eq_refl)).
Defined.


Lemma general_cached_wdn_missing :
  model_name blend_request = weight_file_name realesr_general_x4v3 /\
  denoise_strength blend_request = Some strength_03 /\
  PrimFloat.eqb strength_03 1 = false /\
  (abspath host_cpu (OsPath.join "weights" (model_name blend_request ++ ".pth")) ∈
     files general_cached_world) /\
  (EvRealESRGANer blend_cached_args ∈
     new_events (upscale weight_file_name host_cpu [] blend_request) general_cached_world) /\
  (abspath host_cpu "weights/realesr-general-wdn-x4v3.pth" ∉ files general_cached_world) /\
  ra_model_path blend_cached_args =
    PathList ["weights/realesr-general-x4v3.pth"; "weights/realesr-general-wdn-x4v3.pth"] /\
  Forall (fun ev => is_load ev = false)
    (new_events (upscale weight_file_name host_cpu [] blend_request) general_cached_world) /\
  files (snd (_get_model_path host_cpu (model_name blend_request) blend_urls
                general_cached_world)) = files general_cached_world.
Proof.
  assert (Hc : abspath host_cpu (OsPath.join "weights" (model_name blend_request ++ ".pth")) ∈
                 files general_cached_world).
  { apply (bool_decide_unpack _). vm_compute. exact I. }
  assert (H : EvRealESRGANer blend_cached_args ∈
                new_events (upscale weight_file_name host_cpu [] blend_request)
                  general_cached_world).
  { apply (list_elem_of_lookup_2 _ 2). vm_compute. reflexivity. }
  split; [reflexivity|]. split; [reflexivity|]. split; [reflexivity|].
  split; [exact Hc|]. split; [exact H|].
  split; [apply (bool_decide_unpack _); vm_compute; exact I|].
  split; [reflexivity|].
  split.
  - exact (proj2 (proj2 (cache_hit_checks_one_file weight_file_name host_cpu) []
                    blend_request general_cached_world strength_03 blend_cached_args
                    eq_refl eq_refl eq_refl Hc H)).
  - destruct (proj1 (cache_hit_checks_one_file weight_file_name host_cpu)
                (model_name blend_request) blend_urls general_cached_world)
      as (loads & _ & _ & Hhit).
    exact (proj1 (proj2 (Hhit Hc))).
Defined.

Lemma sample_host_basicsr (cuda mps : bool) (decoded : option ndarray)
  (enhanced : result ndarray) :
  basicsr_loader (sample_host cuda mps decoded enhanced).
Proof. intros url model_dir fs. reflexivity. Qed.

Lemma cached_general_not_downloaded :
  (abspath host_cpu (OsPath.join "weights" ("realesr-general-x4v3" ++ ".pth")) ∈
     files general_cached_world) /\
  basicsr_loader host_cpu /\
  downloads
    (new_events (_get_model_path host_cpu "realesr-general-x4v3" blend_urls)
       general_cached_world) = 0 /\
  downloads
    (new_events (_get_model_path host_cpu "realesr-general-x4v3" blend_urls)
       (snd (_get_model_path host_cpu "realesr-general-x4v3" blend_urls empty_world))) = 0.
Proof.
  assert (Hc : abspath host_cpu (OsPath.join "weights" ("realesr-general-x4v3" ++ ".pth")) ∈
                 files general_cached_world).
  { apply (bool_decide_unpack _). vm_compute. exact I. }
  pose proof (sample_host_basicsr false false (Some sample_image) (Return sample_image)) as Hb.
  split; [exact Hc|]. split; [exact Hb|]. split.
  - exact (proj1 (cached_weights_not_downloaded host_cpu "realesr-general-x4v3" blend_urls
                    general_cached_world) Hc).
  - exact (proj2 (proj2 (cached_weights_not_downloaded host_cpu "realesr-general-x4v3"
                           blend_urls empty_world) Hb)).
Defined.

Lemma blend_weights_03 :
  (EvRealESRGANer blend_cached_args ∈
     new_events (upscale weight_file_name host_cpu [] blend_request) general_cached_world) /\
  PrimFloat.leb 0 strength_03 = true /\
  PrimFloat.leb strength_03 1 = true /\
  ra_dni_weight blend_cached_args = Some [strength_03; strength_07] /\
  (strength_03 + strength_07)%float = 1%float /\
  exists (me : ModelEntity) (p : string),
    _get_model weight_file_name (model_name blend_request) = Return me /\
    fst (_get_model_path host_cpu (model_name blend_request) (file_url me) general_cached_world)
      = Return p /\
    (model_name blend_request = weight_file_name realesr_general_x4v3 ->
     match denoise_strength blend_request with
     | None => blend_absent blend_cached_args p
     | Some s =>
         if PrimFloat.eqb s 1 then blend_absent blend_cached_args p
         else
           ra_model_path blend_cached_args =
             PathList [p; PyStr.replace p "realesr-general-x4v3" "realesr-general-wdn-x4v3"] /\
           ra_dni_weight blend_cached_args = Some [s; (1 - s)%float] /\
           (PrimFloat.leb 0 s = true -> PrimFloat.leb s 1 = true ->
            (s + (1 - s))%float = 1%float)
     end) /\
    (model_name blend_request <> weight_file_name realesr_general_x4v3 ->
     blend_absent blend_cached_args p).
Proof.
  assert (H : EvRealESRGANer blend_cached_args ∈
                new_events (upscale weight_file_name host_cpu [] blend_request)
                  general_cached_world).
  { apply (list_elem_of_lookup_2 _ 2). vm_compute. reflexivity. }
  split; [exact H|]. split; [reflexivity|]. split; [reflexivity|].
  split; [reflexivity|]. split; [reflexivity|].
  exact (denoise_blend_weights weight_file_name host_cpu [] blend_request
           general_cached_world blend_cached_args H).
Defined.

(** * Further properties of the pipeline *)

(** ** The returned extension *)

Lemma upscale_img_mode_RGBA (img : ndarray) :
  upscale_img_mode img =
    if decide (length (shape img) = 3 /\ shape img !! 2%nat = Some 4%Z)
    then Some "RGBA" else None.
Proof.
  unfold upscale_img_mode.
  destruct (Nat.eqb_spec (length (shape img)) 3) as [E|E]; cbn [andb].
  - case_bool_decide as H4.
    + rewrite decide_True by auto. reflexivity.
    + rewrite decide_False by tauto. reflexivity.
  - rewrite decide_False by tauto. reflexivity.
Qed.

(** X1. When [upscale] returns, the input decoded to an image, and the
    returned extension is "png" when that image has three dimensions, the
    third of size 4; otherwise it is "jpg" for the request "auto" and the
    requested extension in every other case. *)
Theorem returned_extension (value : ModelName -> string) (host : Host)
  (file : list byte) (params : UpscaleRequest) (w : World)
  (buffer : list byte) (extension : string) :
  fst (upscale value host file params w) = Return (buffer, extension) ->
  exists img : ndarray,
    imdecode host file = Return (Some img) /\
    extension =
      if decide (length (shape img) = 3 /\ shape img !! 2%nat = Some 4%Z) then "png"
      else if decide (ext params = "auto") then "jpg"
      else ext params.
Proof.
  run_upscale value host file params w; cbn [fst]; intros Hret; try discriminate Hret.
  all: injection Hret as _ <-; exists img; split; [reflexivity|].
  all: unfold _get_extension; rewrite upscale_img_mode_RGBA;
    destruct (decide (length (shape img) = 3 /\ shape img !! 2%nat = Some 4%Z));
    cbn [img_mode_is]; [reflexivity|];
    destruct (String.eqb_spec (ext params) "auto"); case_decide; congruence.
Qed.

(** ** Errors and the log *)

(** Proving a property of every event of a run: the look-up, the loads and
    the events that follow. *)
Ltac forall_events Hloads :=
  repeat first
    [ apply Forall_nil_2
    | apply Forall_cons_2; [reflexivity|]
    | apply Forall_app_2;
      [ eapply Forall_impl; [exact Hloads|]; intros [] ?; cbn in *; congruence | ]
    | solve [ eapply Forall_impl; [exact Hloads|]; intros [] ?; cbn in *; congruence ] ].

(** X2. When the encoder reports failure, [upscale] raises
    [RuntimeError('Error encoding the image')]; this error is raised after
    the [try] block, so nothing is written to the error log. *)
Theorem encoding_failure_not_logged (value : ModelName -> string) (host : Host)
  (file : list byte) (params : UpscaleRequest) (w : World)
  (suffix : string) (output : ndarray) (buffer : list byte) :
  EvImencode suffix output ∈ new_events (upscale value host file params) w ->
  imencode host suffix output = Return (false, buffer) ->
  fst (upscale value host file params w) =
    Raise (Exn RuntimeError "Error encoding the image") /\
  Forall (fun ev => is_log_error ev = false)
    (new_events (upscale value host file params) w).
Proof.
  unfold new_events.
  run_upscale value host file params w;
    rewrite ?drop_app_length, ?drop_all; intros Hin Hfail; split_elem Hin;
    try (not_a_load Hloads Hin);
    injection Hin as -> ->; try congruence.
  all: split; [reflexivity|]; forall_events Hloads.
Qed.

Lemma count_events_app (p : event -> bool) (l k : list event) :
  count_events p (l ++ k) = count_events p l + count_events p k.
Proof. unfold count_events. rewrite List.filter_app, length_app. reflexivity. Qed.

Lemma count_events_loads (p : event -> bool) (loads : list event) :
  (forall ev, is_load ev = true -> p ev = false) ->
  Forall (fun ev => is_load ev = true) loads ->
  count_events p loads = 0.
Proof.
  intros Hp Hloads. unfold count_events.
  induction Hloads as [|ev loads Hev _ IH]; [reflexivity|].
  cbn [List.filter]. rewrite (Hp ev Hev). exact IH.
Qed.

(** Counting in a run: the look-up, the loads and the events that follow. *)
Ltac count_run p Hloads :=
  rewrite (count_events_app p [_]), (count_events_app p),
    (count_events_loads p _ ltac:(intros [] ?; cbn in *; congruence) Hloads);
  reflexivity.

(** Finding an event of the run after the loads. *)
Ltac exists_after_loads :=
  apply Exists_cons_tl; apply Exists_app; right;
  repeat first [ apply Exists_cons_hd; reflexivity | apply Exists_cons_tl ].

(** X3. An entry in the error log has one origin: the [try] block.  If
    [upscale] logged the error [e], then [e] is a [RuntimeError], [upscale]
    raised [e], the entry is the last event of the run and the only entry,
    and the enhancement stage had been entered.  Errors of the registry,
    the weight resolver, the device selector, the constructor, the decoder
    and the encoder are never logged. *)
Theorem error_log_origin (value : ModelName -> string) (host : Host)
  (file : list byte) (params : UpscaleRequest) (w : World) (e : exn) :
  EvLogError e ∈ new_events (upscale value host file params) w ->
  is_RuntimeError e = true /\
  fst (upscale value host file params w) = Raise e /\
  last (new_events (upscale value host file params) w) = Some (EvLogError e) /\
  count_events is_log_error (new_events (upscale value host file params) w) = 1 /\
  Exists (fun ev => is_enhancement ev = true)
    (new_events (upscale value host file params) w).
Proof.
  unfold new_events.
  run_upscale value host file params w;
    rewrite ?drop_app_length, ?drop_all; intros Hin; split_elem Hin;
    try (not_a_load Hloads Hin);
    injection Hin as ->; try congruence.
  all: split; [first [assumption | reflexivity]|]; split; [reflexivity|].
  all: split; [rewrite last_cons, last_app; reflexivity|].
  all: split; [change (EvIsFile ?c :: ?l) with ([EvIsFile c] ++ l); count_run is_log_error Hloads|].
  all: exists_after_loads.
Qed.

(** X4. An error of an enhancer call that is no [RuntimeError] passes
    through the [try] block: [upscale] raises it, the failing call is the
    last event of the run, and nothing is written to the error log. *)
Theorem other_enhancement_error_not_logged (value : ModelName -> string) (host : Host)
  (file : list byte) (params : UpscaleRequest) (w : World) (ev : event) (e : exn) :
  ev ∈ new_events (upscale value host file params) w ->
  enhancement_raises host ev e ->
  is_RuntimeError e = false ->
  fst (upscale value host file params w) = Raise e /\
  last (new_events (upscale value host file params) w) = Some ev /\
  Forall (fun ev' => is_log_error ev' = false)
    (new_events (upscale value host file params) w).
Proof.
  unfold new_events.
  run_upscale value host file params w;
    rewrite ?drop_app_length, ?drop_all; intros Hin Hraise Hnort; split_elem Hin;
    first [ subst ev
          | pose proof (proj1 (Forall_forall _ _) Hloads _ Hin);
            destruct ev; cbn in *; try discriminate; contradiction ];
    cbn in Hraise; try contradiction; try congruence.
  all: assert (e0 = e) as -> by congruence.
  all: split; [reflexivity|].
  all: split; [rewrite last_cons, last_app; reflexivity|].
  all: forall_events Hloads.
Qed.

(** ** The two enhancement paths *)

(** X5. The face enhancer is built only on request, and from what the run
    has resolved: when [GFPGANer] is constructed, [face_enhance] is set, and
    its arguments are the fixed weight url, the requested [outscale], the
    architecture [clean] with channel multiplier 2, the [RealESRGANer]
    object of this run as background upsampler and the backend that object
    was given. *)
Theorem face_enhancer_arguments (value : ModelName -> string) (host : Host)
  (file : list byte) (params : UpscaleRequest) (w : World) (g : GFPGANer_args) :
  EvGFPGANer g ∈ new_events (upscale value host file params) w ->
  face_enhance params = true /\
  EvRealESRGANer (ga_bg_upsampler g) ∈ new_events (upscale value host file params) w /\
  g = mkGFPGANer
        "https://github.com/TencentARC/GFPGAN/releases/download/v1.3.0/GFPGANv1.3.pth"
        (outscale params) "clean" 2 (ga_bg_upsampler g) (ra_device (ga_bg_upsampler g)).
Proof.
  unfold new_events.
  run_upscale value host file params w;
    rewrite ?drop_app_length, ?drop_all; intros Hin; split_elem Hin;
    try (not_a_load Hloads Hin);
    injection Hin as ->; cbn [ga_bg_upsampler ra_device].
  all: split; [reflexivity|]; split; [|reflexivity].
  all: apply elem_of_cons; right; apply elem_of_app; right;
    apply list_elem_of_further, list_elem_of_here.
Qed.

(** X6. One enhancement path per run.  With [face_enhance] set, [upscale]
    itself never calls [upsampler.enhance]: the image goes to the face
    enhancer only.  Without it, [GFPGANer] is neither constructed nor
    called. *)
Theorem one_enhancement_path (value : ModelName -> string) (host : Host)
  (file : list byte) (params : UpscaleRequest) (w : World) :
  Forall (fun ev => if face_enhance params
                    then is_plain_enhance ev = false
                    else is_face_event ev = false)
    (new_events (upscale value host file params) w).
Proof.
  unfold new_events.
  run_upscale value host file params w;
    rewrite ?drop_app_length, ?drop_all;
    destruct (face_enhance params); try discriminate;
    forall_events Hloads.
Qed.

(** X7. No stage is repeated: in one run [RealESRGANer] is constructed at
    most once, the input is decoded at most once, at most one enhancer call
    is made, the encoder is called at most once and the cache is looked up
    at most once. *)
Theorem stages_run_at_most_once (value : ModelName -> string) (host : Host)
  (file : list byte) (params : UpscaleRequest) (w : World) :
  let evs := new_events (upscale value host file params) w in
  count_events is_constructor evs <= 1 /\
  count_events is_decode evs <= 1 /\
  count_events is_enhance_call evs <= 1 /\
  count_events is_encode evs <= 1 /\
  count_events (fun ev => match ev with EvIsFile _ => true | _ => false end) evs <= 1.
Proof.
  cbn zeta. unfold new_events.
  run_upscale value host file params w;
    rewrite ?drop_app_length, ?drop_all.
  all: try (cbn; lia).
  all: change (EvIsFile ?c :: ?l) with ([EvIsFile c] ++ l).
  all: repeat match goal with
         | |- context [count_events ?p ([?a] ++ ?l ++ ?k)] =>
             rewrite (count_events_app p [a]), (count_events_app p l k),
               (count_events_loads p l ltac:(intros [] ?; cbn in *; congruence) Hloads)
         | |- context [count_events ?p ([?a] ++ ?l)] =>
             rewrite (count_events_app p [a]),
               (count_events_loads p l ltac:(intros [] ?; cbn in *; congruence) Hloads)
         end.
  all: cbn; lia.
Qed.

(** X8. A run that returns went through every stage once: the cache
    look-up, the construction of [RealESRGANer], the decoder, one enhancer
    call and the encoder, which is the last event. *)
Theorem successful_run_stages (value : ModelName -> string) (host : Host)
  (file : list byte) (params : UpscaleRequest) (w : World)
  (buffer : list byte) (extension : string) :
  fst (upscale value host file params w) = Return (buffer, extension) ->
  let evs := new_events (upscale value host file params) w in
  count_events is_constructor evs = 1 /\
  count_events is_decode evs = 1 /\
  count_events is_enhance_call evs = 1 /\
  count_events is_encode evs = 1 /\
  count_events is_log_error evs = 0.
Proof.
  cbn zeta. unfold new_events.
  run_upscale value host file params w; cbn [fst]; intros Hret; try discriminate Hret;
    rewrite ?drop_app_length, ?drop_all.
  all: change (EvIsFile ?c :: ?l) with ([EvIsFile c] ++ l).
  all: repeat match goal with
         | |- context [count_events ?p ([?a] ++ ?l ++ ?k)] =>
             rewrite (count_events_app p [a]), (count_events_app p l k),
               (count_events_loads p l ltac:(intros [] ?; cbn in *; congruence) Hloads)
         end.
  all: cbn; auto.
Qed.

(** ** The device and the weights *)

(** X9. The backend is resolved after the weights.  When the model is
    supported and its weights resolve but the requested backend is not
    available, [upscale] raises the error of the device selector, and the
    world it leaves is the one the weight resolver left: the cache was
    looked up and missing weights were downloaded, and no engine was
    constructed. *)
Theorem unavailable_device_after_weights (value : ModelName -> string) (host : Host)
  (file : list byte) (params : UpscaleRequest) (w : World)
  (me : ModelEntity) (p : string) (e : exn) :
  _get_model value (model_name params) = Return me ->
  fst (_get_model_path host (model_name params) (file_url me) w) = Return p ->
  fst (_get_device_type host (device_type params) w) = Raise e ->
  upscale value host file params w =
    (Raise e, snd (_get_model_path host (model_name params) (file_url me) w)).
Proof.
  intros Hme Hp Hdev.
  rewrite get_device_type_run in Hdev.
  unfold upscale, bind, lift. rewrite Hme.
  destruct (_get_model_path host (model_name params) (file_url me) w) as [r w1].
  cbn [fst snd] in *. subst r.
  rewrite get_device_type_run.
  destruct (device_policy host (device_type params)) as [dev|e'];
    cbn [fst] in Hdev; [discriminate Hdev|].
  injection Hdev as ->. reflexivity.
Qed.

(** ** The registry *)

Lemma get_model_descriptor (value : ModelName -> string) (name : string)
  (d : ModelEntity) :
  _get_model value name = Return d ->
  netscale d = net_scale (model d) /\
  (netscale d = 2%Z \/ netscale d = 4%Z) /\
  file_url d <> [].
Proof.
  unfold _get_model.
  repeat match goal with
         | |- context [String.eqb name ?v] => destruct (String.eqb name v)
         end;
    intros [= <-]; cbn; auto.
Qed.

(** X10. Every descriptor of the registry is consistent: its [netscale] is
    the scale its network was built with, which is 2 or 4, and it names at
    least one url, so that on a cache miss the path of the weights always
    comes from [load_file_from_url]. *)
Theorem registry_descriptor_consistent (value : ModelName -> string) (name : string)
  (d : ModelEntity) :
  _get_model value name = Return d ->
  netscale d = net_scale (model d) /\
  (netscale d = 2%Z \/ netscale d = 4%Z) /\
  file_url d <> [].
Proof. apply get_model_descriptor. Qed.

(** ** The loop over the urls *)

Lemma for_url_in_stops (host : Host) (file_url : list string)
  (model_dir model_path : string) (w : World) :
  exists r fs loads,
    for_url_in host file_url model_dir model_path w = (r, mkWorld fs (trace w ++ loads)) /\
    match r with
    | Return _ =>
        requested_urls loads = file_url /\
        all_return host model_dir (files w) file_url
    | Raise e =>
        exists done url rest,
          file_url = done ++ url :: rest /\
          requested_urls loads = done ++ [url] /\
          all_return host model_dir (files w) done /\
          lo_result (load_file_from_url host url model_dir
                       (files_after_loads host model_dir (files w) done)) = Raise e
    end.
Proof.
  revert model_path w.
  induction file_url as [|url urls IH]; intros model_path w.
  - exists (Return model_path), (files w), [].
    cbn. unfold ret. rewrite app_nil_r. destruct w. auto.
  - cbn [for_url_in]. unfold bind, call_load_file_from_url.
    destruct (lo_result (load_file_from_url host url model_dir (files w))) as [p|e] eqn:E.
    + edestruct (IH p) as (r & fs & loads & Hrun & Hr).
      rewrite Hrun. cbn [trace files] in *. rewrite <- app_assoc.
      eexists r, fs, (_ :: loads). split; [reflexivity|].
      destruct r as [q|e].
      * destruct Hr as [Hreq Hall]. cbn [requested_urls flat_map app all_return].
        fold (requested_urls loads). rewrite Hreq.
        split; [reflexivity|]. split; [exists p; exact E | exact Hall].
      * destruct Hr as (done & url' & rest & Hurls & Hreq & Hall & Hfail).
        exists (url :: done), url', rest.
        cbn [requested_urls flat_map app all_return files_after_loads].
        fold (requested_urls loads). rewrite Hreq, Hurls.
        split; [reflexivity|]. split; [reflexivity|].
        split; [split; [exists p; exact E | exact Hall] | exact Hfail].
    + eexists (Raise e), _, [_]. split; [reflexivity|].
      exists [], url, urls. cbn [app requested_urls flat_map all_return files_after_loads].
      split; [reflexivity|]. split; [reflexivity|]. split; [exact I | exact E].
Qed.

(** X11. The weight resolver hands the urls of the descriptor to
    [load_file_from_url] in their order and stops at the first call that
    raises.  On a cache hit no url is requested.  On a miss: when the
    resolver returns, the urls requested are the whole list, each call
    having returned; when it raises [e], the list is [done ++ url :: rest]
    where the calls for [done] returned, the call for [url], made on the
    disk they left, raised [e], and the urls requested are [done ++ [url]]:
    those of [rest] are not tried. *)
Theorem urls_requested_in_order (host : Host) (name : string) (file_url : list string)
  (w : World) :
  (abspath host (OsPath.join "weights" (name ++ ".pth")) ∈ files w ->
   requested_urls (new_events (_get_model_path host name file_url) w) = []) /\
  (abspath host (OsPath.join "weights" (name ++ ".pth")) ∉ files w ->
   match fst (_get_model_path host name file_url w) with
   | Return _ =>
       requested_urls (new_events (_get_model_path host name file_url) w) = file_url /\
       all_return host (OsPath.join (root_dir host) "weights") (files w) file_url
   | Raise e =>
       exists done url rest,
         file_url = done ++ url :: rest /\
         requested_urls (new_events (_get_model_path host name file_url) w) = done ++ [url] /\
         all_return host (OsPath.join (root_dir host) "weights") (files w) done /\
         lo_result
           (load_file_from_url host url (OsPath.join (root_dir host) "weights")
              (files_after_loads host (OsPath.join (root_dir host) "weights") (files w) done))
         = Raise e
   end).
Proof.
  unfold new_events, _get_model_path, bind, isfile, ret.
  case_bool_decide as Hin; cbn [negb].
  - split; [|intros Hn; contradiction].
    intros _. cbn [snd trace]. rewrite drop_app_length. reflexivity.
  - split; [intros Hin'; contradiction|]. intros _.
    destruct (for_url_in_stops host file_url (OsPath.join (root_dir host) "weights")
                (OsPath.join "weights" (name ++ ".pth"))
                (mkWorld (files w)
                   (trace w ++ [EvIsFile (OsPath.join "weights" (name ++ ".pth"))])))
      as (r & fs & loads & Hrun & Hr).
    rewrite Hrun. cbn [fst snd trace files] in *. rewrite <- app_assoc, drop_app_length.
    cbn [app requested_urls flat_map]. fold (requested_urls loads).
    exact Hr.
Qed.

(** ** A cache miss with the loader of basicsr *)

Lemma for_url_in_basicsr_path (host : Host) (file_url : list string)
  (model_dir model_path : string) (w : World) :
  basicsr_loader host ->
  exists fs loads,
    for_url_in host file_url model_dir model_path w =
      (Return match last file_url with
              | Some url => abspath host (OsPath.join model_dir (OsPath.basename url))
              | None => model_path
              end,
       mkWorld fs (trace w ++ loads)) /\
    files w ⊆ fs /\
    (forall url, url ∈ file_url ->
                 abspath host (OsPath.join model_dir (OsPath.basename url)) ∈ fs).
Proof.
  intros Hb. revert model_path w.
  induction file_url as [|url rest IH]; intros model_path w.
  - exists (files w), []. cbn. unfold ret. rewrite app_nil_r. destruct w. cbn.
    split; [reflexivity|]. split; [set_solver|].
    intros url Hin. apply elem_of_nil in Hin. contradiction.
  - cbn [for_url_in]. unfold bind, call_load_file_from_url.
    rewrite Hb. unfold basicsr_load_file_from_url.
    set (target := abspath host (OsPath.join model_dir (OsPath.basename url))).
    rewrite last_cons.
    case_bool_decide as Hin; cbn [lo_result lo_files lo_fetched].
    + edestruct (IH target) as (fs & loads & Hrun & Hsub & Hall).
      rewrite Hrun. cbn [trace files] in *. rewrite <- app_assoc.
      eexists fs, (_ :: loads).
      split; [destruct (last rest); reflexivity|].
      split; [assumption|].
      intros url' Hin'. apply elem_of_cons in Hin' as [->|Hin']; [|auto].
      apply Hsub, Hin.
    + edestruct (IH target) as (fs & loads & Hrun & Hsub & Hall).
      rewrite Hrun. cbn [trace files] in *. rewrite <- app_assoc.
      eexists fs, (_ :: loads).
      split; [destruct (last rest); reflexivity|].
      split; [set_solver|].
      intros url' Hin'. apply elem_of_cons in Hin' as [->|Hin']; [|auto].
      apply Hsub. set_solver.
Qed.

Lemma get_model_path_miss (host : Host) (name : string) (file_url : list string)
  (w : World) :
  basicsr_loader host ->
  abspath host (OsPath.join "weights" (name ++ ".pth")) ∉ files w ->
  fst (_get_model_path host name file_url w) = Return (resolved_path host name file_url) /\
  (forall url, url ∈ file_url ->
               local_file host url ∈ files (snd (_get_model_path host name file_url w))) /\
  files w ⊆ files (snd (_get_model_path host name file_url w)).
Proof.
  intros Hb Hmiss. unfold _get_model_path, bind, isfile, resolved_path, local_file.
  rewrite bool_decide_eq_false_2 by assumption. cbn [negb].
  destruct (for_url_in_basicsr_path host file_url (OsPath.join (root_dir host) "weights")
              (OsPath.join "weights" (name ++ ".pth"))
              (mkWorld (files w)
                 (trace w ++ [EvIsFile (OsPath.join "weights" (name ++ ".pth"))])) Hb)
    as (fs & loads & Hrun & Hsub & Hall).
  rewrite Hrun. cbn [fst snd files] in *. auto.
Qed.

(** X12. For a descriptor of the registry and with the loader of basicsr,
    a cache miss leaves the local file of every url of the descriptor on
    disk, removes nothing, and returns the local file of the last url of
    the descriptor. *)
Theorem weights_on_disk_after_miss (value : ModelName -> string) (host : Host)
  (name : string) (me : ModelEntity) (w : World) :
  _get_model value name = Return me ->
  basicsr_loader host ->
  abspath host (OsPath.join "weights" (name ++ ".pth")) ∉ files w ->
  (exists url, last (file_url me) = Some url /\
               fst (_get_model_path host name (file_url me) w) =
                 Return (local_file host url)) /\
  (forall url, url ∈ file_url me ->
               local_file host url ∈ files (snd (_get_model_path host name (file_url me) w))) /\
  files w ⊆ files (snd (_get_model_path host name (file_url me) w)).
Proof.
  intros Hme Hb Hmiss.
  destruct (get_model_descriptor _ _ _ Hme) as (_ & _ & Hne).
  destruct (get_model_path_miss host name (file_url me) w Hb Hmiss) as (Hret & Hall & Hsub).
  split; [|auto].
  unfold resolved_path in Hret.
  destruct (last (file_url me)) as [url|] eqn:Hlast.
  - exists url. auto.
  - apply last_None in Hlast. contradiction.
Qed.

(** X13. On a cache miss with the loader of basicsr, the weight path
    [upscale] gives to [RealESRGANer] (the first one when it gives two) is
    the local file of the last url of the descriptor, and that file is on
    disk when the weight resolver is done. *)
Theorem engine_gets_last_url_file (value : ModelName -> string) (host : Host)
  (file : list byte) (params : UpscaleRequest) (w : World) (args : RealESRGANer_args) :
  basicsr_loader host ->
  abspath host (OsPath.join "weights" (model_name params ++ ".pth")) ∉ files w ->
  EvRealESRGANer args ∈ new_events (upscale value host file params) w ->
  exists (me : ModelEntity) (url : string),
    _get_model value (model_name params) = Return me /\
    last (file_url me) = Some url /\
    (ra_model_path args = OnePath (local_file host url) \/
     exists wdn, ra_model_path args = PathList [local_file host url; wdn]) /\
    local_file host url ∈
      files (snd (_get_model_path host (model_name params) (file_url me) w)).
Proof.
  intros Hb Hmiss Hin.
  destruct (upscale_constructor_call _ _ _ _ _ _ Hin) as (me & mp & dev & Hme & Hmp & _ & ->).
  destruct (get_model_descriptor _ _ _ Hme) as (_ & _ & Hne).
  destruct (get_model_path_miss host (model_name params) (file_url me) w Hb Hmiss)
    as (Hret & Hall & _).
  rewrite Hret in Hmp. injection Hmp as <-.
  unfold resolved_path in *.
  destruct (last (file_url me)) as [url|] eqn:Hlast.
  - exists me, url. split; [assumption|]. split; [exact Hlast|]. split.
    + cbn [ra_model_path]. unfold upscale_dni.
      destruct (denoise_strength params) as [s|]; [|left; reflexivity].
      destruct (String.eqb (model_name params) (value realesr_general_x4v3) &&
                negb (PrimFloat.eqb s 1)); cbn [fst]; [right; eexists|left]; reflexivity.
    + apply Hall. apply last_Some_elem_of. assumption.
  - apply last_None in Hlast. contradiction.
Qed.

(** ** Where errors come from *)

Lemma get_model_raise (value : ModelName -> string) (name : string) (e : exn) :
  _get_model value name = Raise e ->
  e = Exn ValueError "Invalid model name" /\ forall m, name <> value m.
Proof.
  unfold _get_model.
  repeat match goal with
         | |- context [String.eqb name ?v] =>
             let E := fresh "E" in destruct (String.eqb_spec name v) as [E|E]
         end;
    intros [= <-].
  split; [reflexivity|]. intros []; assumption.
Qed.

Lemma for_url_in_raise (host : Host) (file_url : list string)
  (model_dir model_path : string) (w : World) (e : exn) :
  fst (for_url_in host file_url model_dir model_path w) = Raise e ->
  exists url fs, lo_result (load_file_from_url host url model_dir fs) = Raise e.
Proof.
  revert model_path w.
  induction file_url as [|url rest IH]; intros model_path w; [discriminate|].
  cbn [for_url_in]. unfold bind, call_load_file_from_url.
  destruct (lo_result (load_file_from_url host url model_dir (files w))) as [p|e'] eqn:E.
  - apply IH.
  - cbn [fst]. intros [= <-]. eauto.
Qed.

Lemma get_model_path_raise (host : Host) (name : string) (file_url : list string)
  (w : World) (e : exn) :
  fst (_get_model_path host name file_url w) = Raise e ->
  exists url model_dir fs, lo_result (load_file_from_url host url model_dir fs) = Raise e.
Proof.
  unfold _get_model_path, bind, isfile.
  destruct (negb _); [|discriminate].
  intros H. apply for_url_in_raise in H as (url & fs & H). eauto.
Qed.

Lemma device_policy_raise (host : Host) (d : DeviceType) (e : exn) :
  device_policy host d = Raise e ->
  (d = CUDA /\ cudaIsAvailable host = false /\ e = Exn RuntimeError "CUDA is not available") \/
  (d = MPS /\ mpsIsAvailable host = false /\ e = Exn RuntimeError "MPS is not available").
Proof.
  unfold device_policy.
  destruct d, (cudaIsAvailable host) eqn:Hc, (mpsIsAvailable host) eqn:Hm;
    intros [= <-] || discriminate; auto.
Qed.

(** X14. Every error [upscale] raises is either one of its own five, raised
    under its own condition (unsupported model name, CUDA or MPS requested
    but not available, input that decodes to no image, encoder reporting
    failure), or the error of a third-party call, raised unchanged. *)
Theorem upscale_errors (value : ModelName -> string) (host : Host)
  (file : list byte) (params : UpscaleRequest) (w : World) (e : exn) :
  fst (upscale value host file params w) = Raise e ->
  own_error value host file params e \/ raised_by_collaborator host file e.
Proof.
  run_upscale value host file params w; cbn [fst]; intros Hraise;
    try discriminate Hraise; injection Hraise as <-.
  all: first
    [ left; eapply err_encoding; eassumption
    | left; apply err_not_an_image; assumption
    | left;
      match goal with
      | H : device_policy _ _ = Raise _ |- _ =>
          destruct (device_policy_raise _ _ _ H) as [(Hd & Hc & ->)|(Hd & Hm & ->)];
          [apply err_cuda_unavailable | apply err_mps_unavailable]; assumption
      end
    | left;
      match goal with
      | H : _get_model _ _ = Raise _ |- _ =>
          destruct (get_model_raise _ _ _ H) as [-> Hno]; apply err_invalid_model, Hno
      end
    | right; eapply by_imencode; eassumption
    | right; eapply by_face_enhance; eassumption
    | right; eapply by_enhance; eassumption
    | right; apply by_imdecode; assumption
    | right; eapply by_RealESRGANer; eassumption
    | right; eapply by_GFPGANer;
      match goal with
      | H : new_GFPGANer _ _ _ = _ |- _ => rewrite H; reflexivity
      end
    | right;
      match goal with
      | H : _get_model_path _ _ _ _ = (Raise ?e, _) |- _ =>
          let Hp := fresh in
          assert (Hp : fst (_get_model_path host (model_name params) (file_url me) w) = Raise e)
            by (rewrite H; reflexivity);
          apply get_model_path_raise in Hp as (url & dir & fs' & Hp);
          eapply by_load_file_from_url, Hp
      end ].
Qed.

(** ** What the encoder is asked for *)

Lemma get_extension_cases (img_mode : option string) (ext : string) :
  _get_extension img_mode ext <> "auto" /\
  (_get_extension img_mode ext = "png" \/
   _get_extension img_mode ext = "jpg" \/
   _get_extension img_mode ext = ext).
Proof.
  unfold _get_extension.
  destruct (img_mode_is img_mode "RGBA"); [split; [discriminate|auto]|].
  destruct (String.eqb_spec ext "auto"); [split; [discriminate|auto]|].
  split; auto.
Qed.

(** X15. The placeholder "auto" never reaches the encoder: whenever
    [upscale] calls [cv2.imencode], the suffix is a dot followed by "png",
    by "jpg" or by the requested extension, and what follows the dot is not
    "auto". *)
Theorem encoder_suffix (value : ModelName -> string) (host : Host)
  (file : list byte) (params : UpscaleRequest) (w : World)
  (suffix : string) (output : ndarray) :
  EvImencode suffix output ∈ new_events (upscale value host file params) w ->
  exists extension : string,
    suffix = ("." ++ extension)%string /\
    extension <> "auto" /\
    (extension = "png" \/ extension = "jpg" \/ extension = ext params).
Proof.
  unfold new_events.
  run_upscale value host file params w;
    rewrite ?drop_app_length, ?drop_all; intros Hin; split_elem Hin;
    try (not_a_load Hloads Hin);
    injection Hin as -> ->.
  all: eexists; split; [reflexivity|]; apply get_extension_cases.
Qed.

(** * Examples for the further properties *)

Lemma rgba_input_gives_png :
  fst (upscale weight_file_name host_rgba [] webp_request empty_world) =
    Return ([x89; x50; x4e; x47], "png") /\
  exists img : ndarray,
    imdecode host_rgba [] = Return (Some img) /\
    "png" =
      if decide (length (shape img) = 3 /\ shape img !! 2%nat = Some 4%Z) then "png"
      else if decide (ext webp_request = "auto") then "jpg"
      else ext webp_request.
Proof.
  assert (H : fst (upscale weight_file_name host_rgba [] webp_request empty_world) =
                Return ([x89; x50; x4e; x47], "png")) by (vm_compute; reflexivity).
  split; [exact H|].
  exact (returned_extension weight_file_name host_rgba [] webp_request empty_world _ _ H).
Defined.

Lemma encoder_failure_example :
  (EvImencode ".jpg" sample_image ∈
     new_events (upscale weight_file_name host_encode_fails [] x4plus_request) empty_world) /\
  imencode host_encode_fails ".jpg" sample_image = Return (false, []) /\
  fst (upscale weight_file_name host_encode_fails [] x4plus_request empty_world) =
    Raise (Exn RuntimeError "Error encoding the image").
Proof.
  assert (H : EvImencode ".jpg" sample_image ∈
                new_events (upscale weight_file_name host_encode_fails [] x4plus_request)
                  empty_world).
  { apply (list_elem_of_lookup_2 _ 6). vm_compute. reflexivity. }
  split; [exact H|]. split; [reflexivity|].
  exact (proj1 (encoding_failure_not_logged weight_file_name host_encode_fails []
                  x4plus_request empty_world ".jpg" sample_image [] H eq_refl)).
Defined.

Lemma out_of_memory_logged_once :
  (EvLogError out_of_memory ∈
     new_events (upscale weight_file_name host_out_of_memory [] x4plus_request) empty_world) /\
  count_events is_log_error
    (new_events (upscale weight_file_name host_out_of_memory [] x4plus_request) empty_world)
    = 1.
Proof.
  assert (H : EvLogError out_of_memory ∈
                new_events (upscale weight_file_name host_out_of_memory [] x4plus_request)
                  empty_world).
  { apply (list_elem_of_lookup_2 _ 6). vm_compute. reflexivity. }
  split; [exact H|].
  exact (proj1 (proj2 (proj2 (proj2 (error_log_origin weight_file_name host_out_of_memory []
                                       x4plus_request empty_world out_of_memory H))))).
Defined.

Lemma codec_error_not_logged :
  (EvEnhance x4plus_cpu_args sample_image 4%float ∈
     new_events (upscale weight_file_name host_codec_error [] x4plus_request) empty_world) /\
  enhancement_raises host_codec_error
    (EvEnhance x4plus_cpu_args sample_image 4%float) codec_error /\
  is_RuntimeError codec_error = false /\
  fst (upscale weight_file_name host_codec_error [] x4plus_request empty_world) =
    Raise codec_error.
Proof.
  assert (H : EvEnhance x4plus_cpu_args sample_image 4%float ∈
                new_events (upscale weight_file_name host_codec_error [] x4plus_request)
                  empty_world).
  { apply (list_elem_of_lookup_2 _ 5). vm_compute. reflexivity. }
  split; [exact H|]. split; [reflexivity|]. split; [reflexivity|].
  exact (proj1 (other_enhancement_error_not_logged weight_file_name host_codec_error []
                  x4plus_request empty_world _ codec_error H eq_refl eq_refl)).
Defined.

Lemma face_enhancer_example :
  (EvGFPGANer x4plus_face_args ∈
     new_events (upscale weight_file_name host_cpu [] face_request) empty_world) /\
  face_enhance face_request = true /\
  EvRealESRGANer (ga_bg_upsampler x4plus_face_args) ∈
    new_events (upscale weight_file_name host_cpu [] face_request) empty_world.
Proof.
  assert (H : EvGFPGANer x4plus_face_args ∈
                new_events (upscale weight_file_name host_cpu [] face_request) empty_world).
  { apply (list_elem_of_lookup_2 _ 5). vm_compute. reflexivity. }
  split; [exact H|].
  pose proof (face_enhancer_arguments weight_file_name host_cpu [] face_request empty_world
                x4plus_face_args H) as (Hf & Hup & _).
  split; [exact Hf | exact Hup].
Defined.

Lemma successful_run_example :
  fst (upscale weight_file_name host_cpu [] x4plus_request empty_world) =
    Return ([x89; x50; x4e; x47], "jpg") /\
  count_events is_enhance_call
    (new_events (upscale weight_file_name host_cpu [] x4plus_request) empty_world) = 1.
Proof.
  assert (H : fst (upscale weight_file_name host_cpu [] x4plus_request empty_world) =
                Return ([x89; x50; x4e; x47], "jpg")) by (vm_compute; reflexivity).
  split; [exact H|].
  exact (proj1 (proj2 (proj2 (successful_run_stages weight_file_name host_cpu []
                                x4plus_request empty_world _ _ H)))).
Defined.

Lemma cuda_missing_after_download :
  _get_model weight_file_name (model_name cuda_request) = Return x4plus_entity /\
  fst (_get_model_path host_cpu (model_name cuda_request) (file_url x4plus_entity) empty_world)
    = Return "/srv/app/weights/RealESRGAN_x4plus.pth" /\
  fst (_get_device_type host_cpu (device_type cuda_request) empty_world) =
    Raise (Exn RuntimeError "CUDA is not available") /\
  upscale weight_file_name host_cpu [] cuda_request empty_world =
    (Raise (Exn RuntimeError "CUDA is not available"),
     snd (_get_model_path host_cpu (model_name cuda_request) (file_url x4plus_entity)
            empty_world)) /\
  downloads (trace (snd (upscale weight_file_name host_cpu [] cuda_request empty_world))) = 1.
Proof.
  assert (Hme : _get_model weight_file_name (model_name cuda_request) = Return x4plus_entity)
    by reflexivity.
  assert (Hp : fst (_get_model_path host_cpu (model_name cuda_request)
                      (file_url x4plus_entity) empty_world)
               = Return "/srv/app/weights/RealESRGAN_x4plus.pth")
    by (vm_compute; reflexivity).
  assert (Hd : fst (_get_device_type host_cpu (device_type cuda_request) empty_world) =
               Raise (Exn RuntimeError "CUDA is not available")) by reflexivity.
  split; [exact Hme|]. split; [exact Hp|]. split; [exact Hd|].
  split; [|vm_compute; reflexivity].
  exact (unavailable_device_after_weights weight_file_name host_cpu [] cuda_request
           empty_world x4plus_entity _ _ Hme Hp Hd).
Defined.

Lemma x2plus_descriptor_consistent :
  exists d : ModelEntity,
    _get_model weight_file_name "RealESRGAN_x2plus" = Return d /\
    netscale d = net_scale (model d) /\ netscale d = 2%Z.
Proof.
  eexists. split; [reflexivity|].
  split; [|reflexivity].
  exact (proj1 (registry_descriptor_consistent weight_file_name "RealESRGAN_x2plus" _
                  eq_refl)).
Defined.

Lemma blend_urls_requested_in_order :
  (abspath host_cpu (OsPath.join "weights" ("realesr-general-x4v3" ++ ".pth")) ∉
     files empty_world) /\
  requested_urls
    (new_events (_get_model_path host_cpu "realesr-general-x4v3" blend_urls) empty_world)
    = blend_urls /\
  (abspath host_wdn_unreachable (OsPath.join "weights" ("realesr-general-x4v3" ++ ".pth")) ∉
     files empty_world) /\
  fst (_get_model_path host_wdn_unreachable "realesr-general-x4v3" blend_urls empty_world) =
    Raise download_failed /\
  exists done url rest,
    blend_urls = done ++ url :: rest /\
    requested_urls
      (new_events (_get_model_path host_wdn_unreachable "realesr-general-x4v3" blend_urls)
         empty_world) = done ++ [url] /\
    all_return host_wdn_unreachable (OsPath.join (root_dir host_wdn_unreachable) "weights")
      (files empty_world) done /\
    lo_result
      (load_file_from_url host_wdn_unreachable url
         (OsPath.join (root_dir host_wdn_unreachable) "weights")
         (files_after_loads host_wdn_unreachable
            (OsPath.join (root_dir host_wdn_unreachable) "weights") (files empty_world) done))
    = Raise download_failed.
Proof.
  assert (Hm : abspath host_cpu (OsPath.join "weights" ("realesr-general-x4v3" ++ ".pth")) ∉
                 files empty_world).
  { apply (bool_decide_unpack _). vm_compute. exact I. }
  assert (Hm' : abspath host_wdn_unreachable
                  (OsPath.join "weights" ("realesr-general-x4v3" ++ ".pth")) ∉
                files empty_world).
  { apply (bool_decide_unpack _). vm_compute. exact I. }
  assert (Hr : fst (_get_model_path host_wdn_unreachable "realesr-general-x4v3" blend_urls
                      empty_world) = Raise download_failed) by (vm_compute; reflexivity).
  split; [exact Hm|]. split.
  - pose proof (proj2 (urls_requested_in_order host_cpu "realesr-general-x4v3" blend_urls
                         empty_world) Hm) as H.
    replace (fst (_get_model_path host_cpu "realesr-general-x4v3" blend_urls empty_world))
      with (Return (A := string) "/srv/app/weights/realesr-general-x4v3.pth") in H
      by (vm_compute; reflexivity).
    exact (proj1 H).
  - split; [exact Hm'|]. split; [exact Hr|].
    pose proof (proj2 (urls_requested_in_order host_wdn_unreachable "realesr-general-x4v3"
                         blend_urls empty_world) Hm') as H.
    rewrite Hr in H. exact H.
Defined.

Lemma blend_weights_on_disk_after_miss :
  _get_model weight_file_name "realesr-general-x4v3" =
    Return (mkModelEntity (SRVGGNetCompact 3 3 64 32 4 "prelu") 4 blend_urls) /\
  basicsr_loader host_cpu /\
  (abspath host_cpu (OsPath.join "weights" ("realesr-general-x4v3" ++ ".pth")) ∉
     files empty_world) /\
  "/srv/app/weights/realesr-general-wdn-x4v3.pth" ∈
    files (snd (_get_model_path host_cpu "realesr-general-x4v3" blend_urls empty_world)).
Proof.
  pose proof (sample_host_basicsr false false (Some sample_image) (Return sample_image)) as Hb.
  assert (Hm : abspath host_cpu (OsPath.join "weights" ("realesr-general-x4v3" ++ ".pth")) ∉
                 files empty_world).
  { apply (bool_decide_unpack _). vm_compute. exact I. }
  split; [reflexivity|]. split; [exact Hb|]. split; [exact Hm|].
  pose proof (weights_on_disk_after_miss weight_file_name host_cpu "realesr-general-x4v3"
                (mkModelEntity (SRVGGNetCompact 3 3 64 32 4 "prelu") 4 blend_urls)
                empty_world eq_refl Hb Hm) as (_ & Hall & _).
  apply (Hall wdn_url). apply list_elem_of_here.
Defined.

Lemma blend_engine_gets_general_file :
  basicsr_loader host_cpu /\
  (abspath host_cpu (OsPath.join "weights" (model_name blend_request ++ ".pth")) ∉
     files empty_world) /\
  (EvRealESRGANer blend_downloaded_args ∈
     new_events (upscale weight_file_name host_cpu [] blend_request) empty_world) /\
  exists (me : ModelEntity) (url : string),
    _get_model weight_file_name (model_name blend_request) = Return me /\
    last (file_url me) = Some url /\
    (ra_model_path blend_downloaded_args = OnePath (local_file host_cpu url) \/
     exists wdn, ra_model_path blend_downloaded_args = PathList [local_file host_cpu url; wdn]) /\
    local_file host_cpu url ∈
      files (snd (_get_model_path host_cpu (model_name blend_request) (file_url me)
                    empty_world)).
Proof.
  pose proof (sample_host_basicsr false false (Some sample_image) (Return sample_image)) as Hb.
  assert (Hm : abspath host_cpu (OsPath.join "weights" (model_name blend_request ++ ".pth")) ∉
                 files empty_world).
  { apply (bool_decide_unpack _). vm_compute. exact I. }
  assert (H : EvRealESRGANer blend_downloaded_args ∈
                new_events (upscale weight_file_name host_cpu [] blend_request) empty_world).
  { apply (list_elem_of_lookup_2 _ 4). vm_compute. reflexivity. }
  split; [exact Hb|]. split; [exact Hm|]. split; [exact H|].
  exact (engine_gets_last_url_file weight_file_name host_cpu [] blend_request empty_world
           blend_downloaded_args Hb Hm H).
Defined.

Lemma encoder_failure_is_own_error :
  fst (upscale weight_file_name host_encode_fails [] x4plus_request empty_world) =
    Raise (Exn RuntimeError "Error encoding the image") /\
  (own_error weight_file_name host_encode_fails [] x4plus_request
     (Exn RuntimeError "Error encoding the image") \/
   raised_by_collaborator host_encode_fails [] (Exn RuntimeError "Error encoding the image")).
Proof.
  assert (H : fst (upscale weight_file_name host_encode_fails [] x4plus_request empty_world) =
                Raise (Exn RuntimeError "Error encoding the image"))
    by (vm_compute; reflexivity).
  split; [exact H|].
  exact (upscale_errors weight_file_name host_encode_fails [] x4plus_request empty_world _ H).
Defined.

Lemma encoder_suffix_example :
  (EvImencode ".jpg" sample_image ∈
     new_events (upscale weight_file_name host_cpu [] x4plus_request) empty_world) /\
  exists extension : string,
    ".jpg" = ("." ++ extension)%string /\
    extension <> "auto" /\
    (extension = "png" \/ extension = "jpg" \/ extension = ext x4plus_request).
Proof.
  assert (H : EvImencode ".jpg" sample_image ∈
                new_events (upscale weight_file_name host_cpu [] x4plus_request) empty_world).
  { apply (list_elem_of_lookup_2 _ 6). vm_compute. reflexivity. }
  split; [exact H|].
  exact (encoder_suffix weight_file_name host_cpu [] x4plus_request empty_world
           ".jpg" sample_image H).
Defined.


(** C1 as stated fails below the range of the schema: [upscale] blends with
    the strength [-0x1.8p-54], and the two weights it passes do not sum to
    1. *)
Lemma below_range_weights_miss_one :
  (EvRealESRGANer below_range_args ∈
     new_events (upscale weight_file_name host_cpu [] below_range_request)
       general_cached_world) /\
  PrimFloat.eqb below_range_strength 1 = false /\
  ra_dni_weight below_range_args =
    Some [below_range_strength; (1 - below_range_strength)%float] /\
  (below_range_strength + (1 - below_range_strength))%float <> 1%float.
Proof.
  split.
  { apply (list_elem_of_lookup_2 _ 2). vm_compute. reflexivity. }
  split; [reflexivity|]. split; [reflexivity|].
  intros H.
  assert (E : PrimFloat.eqb (below_range_strength + (1 - below_range_strength)) 1 =
              PrimFloat.eqb 1 1) by (rewrite H; reflexivity).
  vm_compute in E. discriminate E.
Qed.
